(** * Library catalogue: store, search and recommendation (app.py)

    A shallow embedding of the data-access layer [DatabaseManager] and of
    the two functions [find_books] and [get_recommendations] of app.py,
    with the properties of the catalogue's specification stated over it.

    Text.  A Python [str] is modelled as a [string] whose characters are
    the code points U+0000..U+00FF; [str.strip], [str.lower] and the
    operator [in] are closed on that range.  SQLite's [LOWER] and [LIKE]
    fold case for the ASCII letters only, and [LIKE] reads both operands
    as C strings, so the two lower-casings are kept apart below.

    Storage.  The table [books] is a list of rows in rowid order together
    with the AUTOINCREMENT counter.  Every function of app.py opens a
    connection of its own; what the storage engine does on that
    connection (nothing wrong, failing to open, failing as a statement
    is prepared, failing while a statement runs or commits) is read from
    a schedule carried by the world, so that the [try]/[except
    sqlite3.Error] handlers of the source have something to catch.  The
    parameters of a statement are bound between its preparation and its
    run, which is where an integer outside the 64-bit range raises.  A
    price is kept as the REAL column gives it back, and rows inserted
    but not committed are dropped when the connection closes on an
    exception.

    Routes.  A view takes what the browser carries (the role of the
    session and the flashed messages) and what the request sends, and
    returns its response with the client as it leaves it; [float] and
    [int] of Python, which [admin_add_book] applies to two fields, are
    parameters. *)

From Stdlib Require Import List String Ascii Bool ZArith NArith Lia.
From Stdlib Require Import Permutation Sorted.
From Stdlib Require Import PrimFloat.
From Stdlib Require DecimalString.
Import ListNotations.
Local Open Scope string_scope.
Local Open Scope Z_scope.

(* ================================================================== *)
(** * Text *)
(* ================================================================== *)

Module Text.

(** Code point of a character. *)
Definition ord (c : ascii) : N := N_of_ascii c.

(** [str.isspace] on U+0000..U+00FF: TAB..CR, FS..US, SPACE, NEL, NBSP. *)
Definition isspace (c : ascii) : bool :=
  let n := ord c in
  ((9 <=? n) && (n <=? 13) || (28 <=? n) && (n <=? 32)
   || (n =? 133) || (n =? 160))%N.

(** ASCII capital letter. *)
Definition is_ascii_upper (c : ascii) : bool :=
  let n := ord c in ((65 <=? n) && (n <=? 90))%N.

(** Capital letter of U+0000..U+00FF for Python: A-Z, and U+00C0..U+00DE
    without the multiplication sign U+00D7. *)
Definition is_py_upper (c : ascii) : bool :=
  let n := ord c in
  ((65 <=? n) && (n <=? 90)
   || (192 <=? n) && (n <=? 222) && negb (n =? 215))%N.

Definition shift32 (c : ascii) : ascii := ascii_of_N (ord c + 32).

(** One character of [str.lower]. *)
Definition py_lower_char (c : ascii) : ascii :=
  if is_py_upper c then shift32 c else c.

(** One character of SQLite's [LOWER] ([sqlite3Tolower]). *)
Definition sql_lower_char (c : ascii) : ascii :=
  if is_ascii_upper c then shift32 c else c.

Fixpoint map_chars (f : ascii -> ascii) (s : string) : string :=
  match s with
  | EmptyString => EmptyString
  | String c s' => String (f c) (map_chars f s')
  end.

(** [s.lower()] *)
Definition py_lower (s : string) : string := map_chars py_lower_char s.

(** SQL [LOWER(s)] *)
Definition sql_lower (s : string) : string := map_chars sql_lower_char s.

(** [s.lstrip()] *)
Fixpoint py_lstrip (s : string) : string :=
  match s with
  | EmptyString => EmptyString
  | String c s' => if isspace c then py_lstrip s' else s
  end.

(** [s.rstrip()] *)
Fixpoint py_rstrip (s : string) : string :=
  match s with
  | EmptyString => EmptyString
  | String c s' =>
      match py_rstrip s' with
      | EmptyString => if isspace c then EmptyString else String c EmptyString
      | r => String c r
      end
  end.

(** [s.strip()] *)
Definition py_strip (s : string) : string := py_rstrip (py_lstrip s).

(** [q in s] for two strings: [q] occurs in [s] as a contiguous run. *)
Fixpoint py_in (q s : string) : bool :=
  prefix q s ||
  match s with
  | EmptyString => false
  | String _ s' => py_in q s'
  end.

(** [not s] for a string, as [if not matched_subject] reads it. *)
Definition falsy (s : string) : bool :=
  match s with EmptyString => true | _ => false end.

(** The text of a C string: what precedes the first NUL. *)
Fixpoint c_str (s : string) : string :=
  match s with
  | EmptyString => EmptyString
  | String c s' => if (ord c =? 0)%N then EmptyString else String c (c_str s')
  end.

(** Two characters that [LIKE] takes for the same one: equal, or both
    ASCII and equal once folded. *)
Definition like_same (c c2 : ascii) : bool :=
  Ascii.eqb c c2
  || ((ord c <? 128) && (ord c2 <? 128)
      && Ascii.eqb (sql_lower_char c) (sql_lower_char c2))%N.

Definition match_all : ascii := "%"%char.
Definition match_one : ascii := "_"%char.

(** [patternCompare] of SQLite for [LIKE] without ESCAPE: [%] stands for
    any run of characters, [_] for any one character, every other
    character for itself up to ASCII case. *)
Fixpoint like_match (p s : string) : bool :=
  match p with
  | EmptyString => falsy s
  | String c p' =>
      if Ascii.eqb c match_all then
        (fix skip (t : string) : bool :=
           like_match p' t ||
           match t with
           | EmptyString => false
           | String _ t' => skip t'
           end) s
      else
        match s with
        | EmptyString => false
        | String c2 s' =>
            (like_same c c2 || Ascii.eqb c match_one) && like_match p' s'
        end
  end.

(** SQL [txt LIKE pat]: both operands are read up to their first NUL. *)
Definition sql_like (txt pat : string) : bool :=
  like_match (c_str pat) (c_str txt).

(** No character of [s] satisfies [f]. *)
Fixpoint free_of (f : ascii -> bool) (s : string) : bool :=
  match s with
  | EmptyString => true
  | String c s' => negb (f c) && free_of f s'
  end.

Definition is_wildcard (c : ascii) : bool :=
  Ascii.eqb c match_all || Ascii.eqb c match_one.

Definition is_nul (c : ascii) : bool := (ord c =? 0)%N.

(** A search term that [LIKE] reads literally. *)
Definition literal_term (q : string) : bool :=
  free_of is_wildcard q && free_of is_nul q.

End Text.

Import Text.

(* ================================================================== *)
(** * The table and the storage engine *)
(* ================================================================== *)

(** A row of [books], with the keys of the dictionaries that
    [dict(row)] builds. *)
Record Book : Set := mkBook {
  book_id : Z;
  name : string;
  subject : string;
  price : float;
  edition : Z
}.

(** The database file: the rows of [books] in rowid order, and the
    largest rowid ever handed out (the table's entry in
    [sqlite_sequence], which AUTOINCREMENT keeps). *)
Record Store : Set := mkStore {
  books : list Book;
  seq : Z
}.

(** What the engine does on one connection: nothing wrong;
    [sqlite3.connect] raises; every statement raises as it is prepared,
    before its parameters are bound (the file is locked against readers,
    the schema cannot be read); every statement raises once its
    parameters are bound, as it runs or commits (another writer holds
    the file, the disk fails). *)
Inductive fault : Set :=
| NoFault
| ConnectFault (msg : string)
| PrepareFault (msg : string)
| StatementFault (msg : string).

(** The world a function of app.py runs in: the database, what the
    engine will do on the connections still to be opened (none listed:
    nothing wrong), and the lines printed so far. *)
Record World : Set := mkWorld {
  db : Store;
  engine : list fault;
  stdout : list string
}.

Inductive exn : Set :=
| Sqlite3Error (msg : string)      (* [sqlite3.Error] and its subclasses *)
| OverflowError (msg : string)
| SystemExit (code : Z).

Inductive outcome (A : Type) : Type :=
| Return (a : A)
| Raise (e : exn).
Arguments Return {A} a.
Arguments Raise {A} e.

(** A computation: it reads and writes the world and returns or raises. *)
Definition M (A : Type) : Type := World -> outcome A * World.

Definition ret {A} (a : A) : M A := fun w => (Return a, w).

Definition raise {A} (e : exn) : M A := fun w => (Raise e, w).

Definition bind {A B} (m : M A) (k : A -> M B) : M B :=
  fun w =>
    match m w with
    | (Return a, w') => k a w'
    | (Raise e, w') => (Raise e, w')
    end.

Declare Scope py_scope.
Delimit Scope py_scope with py.
Notation "x <- m ;; k" := (bind m (fun x => k))
  (at level 100, m at next level, right associativity) : py_scope.
Notation "m ;; k" := (bind m (fun _ => k))
  (at level 100, right associativity) : py_scope.
Local Open Scope py_scope.

(** [try: body except sqlite3.Error as e: handler(e)]; every other
    exception passes through. *)
Definition try_except_sqlite3 {A} (body : M A) (handler : string -> M A) : M A :=
  fun w =>
    match body w with
    | (Raise (Sqlite3Error msg), w') => handler msg w'
    | r => r
    end.

Definition print (line : string) : M unit :=
  fun w => (Return tt, mkWorld (db w) (engine w) (stdout w ++ [line]%list)).

Definition get_db : M Store := fun w => (Return (db w), w).

Definition put_db (st : Store) : M unit :=
  fun w => (Return tt, mkWorld st (engine w) (stdout w)).

(** An open connection; [unprepared] holds the error its statements
    raise as they are prepared, [broken] the error they raise as they
    run or commit. *)
Inductive connection : Set := Conn (unprepared broken : option string).

(** What the engine does on the next connection to be opened. *)
Definition next_fault (w : World) : fault :=
  match engine w with
  | [] => NoFault
  | f :: _ => f
  end.

(** The world after the next connection has been opened. *)
Definition opened (w : World) : World :=
  mkWorld (db w) (tl (engine w)) (stdout w).

(** [DatabaseManager._get_connection] *)
Definition _get_connection : M connection :=
  fun w =>
    match next_fault w with
    | NoFault => (Return (Conn None None), opened w)
    | ConnectFault msg => (Raise (Sqlite3Error msg), opened w)
    | PrepareFault msg => (Return (Conn (Some msg) None), opened w)
    | StatementFault msg => (Return (Conn None (Some msg)), opened w)
    end.

(** [cursor.execute] up to the binding of the parameters. *)
Definition statement_prepares (conn : connection) : M unit :=
  match conn with
  | Conn None _ => ret tt
  | Conn (Some msg) _ => raise (Sqlite3Error msg)
  end.

(** [cursor.execute] from there on, and [conn.commit]. *)
Definition statement_runs (conn : connection) : M unit :=
  match conn with
  | Conn _ None => ret tt
  | Conn _ (Some msg) => raise (Sqlite3Error msg)
  end.

(** What a connection closed on an exception leaves behind: the changes
    not yet committed are dropped. *)
Definition transaction {A} (body : M A) : M A :=
  fun w =>
    match body w with
    | (Raise e, w') => (Raise e, mkWorld (db w) (engine w') (stdout w'))
    | r => r
    end.

(** The value that a REAL column gives back for a float stored in it:
    the float itself, but for the negative zero, which comes back as
    [+0.0]. *)
Definition stored_real (x : float) : float :=
  if PrimFloat.eqb x 0 then 0%float else x.

(** SQLite's INTEGER is a signed 64-bit integer. *)
Definition min_int64 : Z := - 2 ^ 63.
Definition max_int64 : Z := 2 ^ 63 - 1.

Definition is_int64 (z : Z) : bool := (min_int64 <=? z) && (z <=? max_int64).

Definition overflow_message : string :=
  "Python int too large to convert to SQLite INTEGER".

(** Binding a Python [int] to a [?] of a statement. *)
Definition bind_int (z : Z) : M Z :=
  if is_int64 z then ret z else raise (OverflowError overflow_message).

(** [SELECT * FROM books WHERE cond], rows as the table scan meets them. *)
Definition select_where (conn : connection) (cond : Book -> bool) : M (list Book) :=
  statement_prepares conn ;;
  statement_runs conn ;;
  st <- get_db ;;
  ret (filter cond (books st)).

(** Inserting by decreasing [book_id], for [ORDER BY book_id DESC]. *)
Fixpoint insert_desc (b : Book) (l : list Book) : list Book :=
  match l with
  | [] => [b]
  | x :: l' =>
      if book_id x <=? book_id b then b :: l else x :: insert_desc b l'
  end.

Definition order_by_book_id_desc (l : list Book) : list Book :=
  fold_right insert_desc [] l.

(** [SELECT * FROM books ORDER BY book_id DESC] *)
Definition select_all_desc (conn : connection) : M (list Book) :=
  statement_prepares conn ;;
  statement_runs conn ;;
  st <- get_db ;;
  ret (order_by_book_id_desc (books st)).

Definition max_rowid (l : list Book) : Z :=
  fold_right (fun b m => Z.max (book_id b) m) 0 l.

(** The largest rowid the table has used. *)
Definition top_rowid (st : Store) : Z := Z.max (seq st) (max_rowid (books st)).

(** The rows that [DELETE ... WHERE book_id = key] leaves. *)
Definition without_id (key : Z) (l : list Book) : list Book :=
  filter (fun b => negb (book_id b =? key)) l.

(** [INSERT INTO books (name, subject, price, edition) VALUES (?,?,?,?)],
    giving [cursor.lastrowid]: the statement is prepared, its parameters
    are bound (the edition is the one that can be refused), and it runs.
    The rowid is one more than the largest ever used; a NaN is stored as
    NULL, which the column's NOT NULL refuses; the price is written as
    the REAL column will give it back.  The commit of [add_book] follows
    at once and passes on a connection whose statements run, so the row
    is written here; [transaction] takes it back where the commit is the
    caller's and is not reached. *)
Definition insert_book (conn : connection)
    (name subject : string) (price : float) (edition : Z) : M Z :=
  statement_prepares conn ;;
  edition <- bind_int edition ;;
  statement_runs conn ;;
  st <- get_db ;;
  if PrimFloat.is_nan price then
    raise (Sqlite3Error "NOT NULL constraint failed: books.price")
  else
    let top := top_rowid st in
    if max_int64 <=? top then
      raise (Sqlite3Error "database or disk is full")
    else
      let rowid := top + 1 in
      put_db (mkStore
                (books st ++ [mkBook rowid name subject (stored_real price) edition])
                rowid) ;;
      ret rowid.

(** [DELETE FROM books WHERE book_id = ?] and its commit, giving
    [cursor.rowcount]: the statement is prepared, the id is bound, and
    the statement runs. *)
Definition delete_book (conn : connection) (book_id_ : Z) : M Z :=
  statement_prepares conn ;;
  key <- bind_int book_id_ ;;
  statement_runs conn ;;
  st <- get_db ;;
  let kept := without_id key (books st) in
  put_db (mkStore kept (seq st)) ;;
  ret (Z.of_nat (List.length (books st)) - Z.of_nat (List.length kept)).

(* ================================================================== *)
(** * DatabaseManager *)
(* ================================================================== *)

Definition initial_books : list (string * string * float * Z) :=
  [ ("The C++ Programming Language", "Computer Science", 750.00%float, 4);
    ("Calculus: Early Transcendentals", "Mathematics", 980.50%float, 8);
    ("Introduction to Data Science", "Computer Science", 620.00%float, 2);
    ("Linear Algebra and Its Applications", "Mathematics", 850.00%float, 5);
    ("Organic Chemistry", "Science", 1100.00%float, 10) ].

(** [DatabaseManager._insert_initial_data]: [executemany] of the INSERT;
    the rows are committed by the caller. *)
Fixpoint _insert_initial_data (conn : connection)
    (l : list (string * string * float * Z)) : M unit :=
  match l with
  | [] => ret tt
  | (n, s, p, e) :: l' => insert_book conn n s p e ;; _insert_initial_data conn l'
  end.

(** [DatabaseManager._initialize_db]: CREATE TABLE IF NOT EXISTS and its
    commit, the count of the rows, and on a table without rows the
    initial data, their commit and the line printed. *)
Definition _initialize_db : M unit :=
  conn <- _get_connection ;;
  try_except_sqlite3
    (statement_prepares conn ;;
     statement_runs conn ;;
     st <- get_db ;;
     if (Z.of_nat (List.length (books st)) =? 0) then
       transaction (_insert_initial_data conn initial_books ;;
                    statement_runs conn) ;;
       print "Database initialized with sample data."
     else ret tt)
    (fun e =>
       print ("SQLite error during initialization: " ++ e) ;;
       raise (SystemExit 1)).

(** [DatabaseManager.add_book]; [None] is the Python [None]. *)
Definition add_book (name subject : string) (price : float) (edition : Z)
  : M (option Z) :=
  conn <- _get_connection ;;
  try_except_sqlite3
    (rowid <- insert_book conn name subject price edition ;;
     ret (Some rowid))
    (fun e => print ("Error adding book: " ++ e) ;; ret None).

(** [DatabaseManager.remove_book] *)
Definition remove_book (book_id_ : Z) : M bool :=
  conn <- _get_connection ;;
  try_except_sqlite3
    (rowcount <- delete_book conn book_id_ ;;
     ret (0 <? rowcount))
    (fun e => print ("Error removing book: " ++ e) ;; ret false).

(** [DatabaseManager.get_all_books] *)
Definition get_all_books : M (list Book) :=
  conn <- _get_connection ;;
  try_except_sqlite3
    (select_all_desc conn)
    (fun e => print ("Error fetching books: " ++ e) ;; ret []).

(* ================================================================== *)
(** * Search and recommendation *)
(* ================================================================== *)

(** [find_books(db_manager, query)] *)
Definition find_books (query : string) : M (list Book) :=
  conn <- _get_connection ;;
  let query_param := "%" ++ py_lower (py_strip query) ++ "%" in
  try_except_sqlite3
    (select_where conn
       (fun b => sql_like (sql_lower (name b)) query_param
                 || sql_like (sql_lower (subject b)) query_param))
    (fun e => print ("Search error: " ++ e) ;; ret []).

(** The order in which the interpreter iterates over a [set] of strings
    built from the given sequence of insertions: the distinct members,
    each once, in an order that the hashes of the running process
    decide. *)
Class SetOrder : Type := {
  set_iter : list string -> list string;
  set_iter_NoDup : forall l, NoDup (set_iter l);
  set_iter_In : forall l s, In s (set_iter l) <-> In s l
}.

Definition no_match_message (query all_subjects_str : string) : string :=
  "I couldn't find a direct match for '" ++ query
  ++ "'. Try searching one of these subjects: " ++ all_subjects_str.

(** The f-string of the source starts with U+1F4A1, kept here as the
    bytes of its UTF-8 form. *)
Definition related_message (target_subject : string) : string :=
  "💡 I didn't find that specific book, but since you are interested in **"
  ++ target_subject ++ "**, check out these related titles:".

Definition error_message : string :=
  "Sorry, an error occurred while fetching recommendations.".

Section Recommendation.

Context {order : SetOrder}.

(** Step 1 of [get_recommendations], on the trimmed and lower-cased
    query: the target subject ([inr]), or the result the function
    returns at once when no subject matches ([inl]). *)
Definition determine_target_subject (query : string) (found_books : list Book)
  : M (string * list Book + string) :=
  match found_books with
  | b :: _ => ret (inr (subject b))
  | [] =>
      all_books <- get_all_books ;;
      let all_subjects := set_iter (map subject all_books) in
      let matched_subject :=
        find (fun s => py_in query (py_lower s)) all_subjects in
      let all_subjects_str :=
        match all_subjects with
        | [] => "No subjects available."
        | _ => concat ", " all_subjects
        end in
      let message := no_match_message query all_subjects_str in
      match matched_subject with
      | None => ret (inl (message, []))
      | Some s => if falsy s then ret (inl (message, [])) else ret (inr s)
      end
  end.

(** Step 2 of [get_recommendations]: the books of the target subject. *)
Definition retrieve_subject_books (query target_subject : string)
  : M (string * list Book) :=
  conn <- _get_connection ;;
  try_except_sqlite3
    (rows <- select_where conn (fun b => String.eqb (subject b) target_subject) ;;
     let recommended_books :=
       filter (fun b => negb (String.eqb (py_lower (name b)) query)) rows in
     ret (related_message target_subject, recommended_books))
    (fun e => print ("Recommendation error: " ++ e) ;; ret (error_message, [])).

(** [get_recommendations(db_manager, query, found_books)] *)
Definition get_recommendations (query : string) (found_books : list Book)
  : M (string * list Book) :=
  let query := py_lower (py_strip query) in
  step1 <- determine_target_subject query found_books ;;
  match step1 with
  | inl early => ret early
  | inr target_subject => retrieve_subject_books query target_subject
  end.

End Recommendation.

(** The distinct members of a sequence, by first occurrence. *)
Fixpoint distinct (l : list string) : list string :=
  match l with
  | [] => []
  | s :: l' => s :: filter (fun t => negb (String.eqb t s)) (distinct l')
  end.

(* ================================================================== *)
(** * The routes *)
(* ================================================================== *)

(** [str(n)] for an integer. *)
Definition py_str_int (n : Z) : string :=
  DecimalString.NilZero.string_of_int (Z.to_int n).

(** [str(e)] for an exception of the model. *)
Definition str_exn (e : exn) : string :=
  match e with
  | Sqlite3Error msg => msg
  | OverflowError msg => msg
  | SystemExit code => py_str_int code
  end.

(** [try: body except Exception as e: handler(e)]; [SystemExit] is no
    [Exception] and passes through. *)
Definition try_except_Exception {A} (body : M A) (handler : exn -> M A) : M A :=
  fun w =>
    match body w with
    | (Raise (SystemExit code), w') => (Raise (SystemExit code), w')
    | (Raise e, w') => handler e w'
    | r => r
    end.

(** What the browser carries from one request to the next: the value of
    [session['role']] when the key is set, and the flashed messages with
    their categories, oldest first. *)
Record Client : Set := mkClient {
  role : option string;
  flashes : list (string * string)
}.

(** What a view returns.  The strings of the routes that start with a
    character outside U+0000..U+00FF are kept as the bytes of their
    UTF-8 form, as for [related_message]. *)
Inductive response : Set :=
| Redirect (endpoint : string)                      (* [redirect(url_for(endpoint))] *)
| Render (template : string)                        (* [render_template(template)] *)
| RenderBooks (template : string) (books : list Book)
| Json (message type : string) (status : Z).        (* [jsonify(...)], status *)

(** [flash(message, category)] *)
Definition flash (c : Client) (message category : string) : Client :=
  mkClient (role c) (flashes c ++ [(message, category)]).

(** [session.get('role') == r] *)
Definition has_role (c : Client) (r : string) : bool :=
  match role c with
  | Some r' => String.eqb r' r
  | None => false
  end.

(** [form.get(key) == v] *)
Definition field_is (field : option string) (v : string) : bool :=
  match field with
  | Some x => String.eqb x v
  | None => false
  end.

Definition unauthorized (c : Client) : response * Client :=
  (Redirect "index", flash c "Unauthorized access." "danger").

(** [index] *)
Definition index (c : Client) : response * Client := (Render "index.html", c).

(** [login]; the two fields are [request.form.get(...)], absent or not. *)
Definition login (c : Client) (form_role form_password : option string)
  : response * Client :=
  if field_is form_role "admin" && field_is form_password "admin" then
    (Redirect "admin_dashboard",
     flash (mkClient (Some "admin") (flashes c)) "Admin login successful!" "success")
  else if field_is form_role "student" then
    (Redirect "student_dashboard",
     flash (mkClient (Some "student") (flashes c))
       "Student access granted! Head to the Chatbot." "success")
  else
    (Redirect "index", flash c "Invalid password for Admin role." "danger").

(** [logout] *)
Definition logout (c : Client) : response * Client :=
  (Redirect "index",
   flash (mkClient None (flashes c)) "You have been logged out." "info").

(** [admin_dashboard] *)
Definition admin_dashboard (c : Client) : M (response * Client) :=
  if negb (has_role c "admin") then ret (unauthorized c)
  else
    all_books <- get_all_books ;;
    ret (RenderBooks "admin_dashboard.html" all_books, c).

Section Coercion.

(** [float(s)] and [int(s)] of Python on a string; [None] stands for the
    [ValueError] they raise on a text they cannot read. *)
Variable py_float : string -> option float.
Variable py_int : string -> option Z.

Definition value_error_flash : string :=
  "❌ Error: Price must be a number and Edition must be an integer.".

(** [admin_add_book]; the four strings are the fields of the form. *)
Definition admin_add_book (c : Client)
    (form_name form_subject form_price form_edition : string)
  : M (response * Client) :=
  if negb (has_role c "admin") then ret (unauthorized c)
  else
    match py_float form_price with
    | None => ret (Redirect "admin_dashboard", flash c value_error_flash "danger")
    | Some price =>
        match py_int form_edition with
        | None =>
            ret (Redirect "admin_dashboard", flash c value_error_flash "danger")
        | Some edition =>
            try_except_Exception
              (added <- add_book form_name form_subject price edition ;;
               match added with
               | Some rowid =>
                   if rowid =? 0 then
                     ret (Redirect "admin_dashboard",
                          flash c "❌ Failed to add book to the database." "danger")
                   else
                     ret (Redirect "admin_dashboard",
                          flash c
                            ("✅ Book '" ++ form_name
                             ++ "' added successfully! ID: " ++ py_str_int rowid)
                            "success")
               | None =>
                   ret (Redirect "admin_dashboard",
                        flash c "❌ Failed to add book to the database." "danger")
               end)
              (fun e =>
                 ret (Redirect "admin_dashboard",
                      flash c ("❌ Application Error: " ++ str_exn e) "danger"))
        end
    end.

End Coercion.

(** [admin_remove_book] *)
Definition admin_remove_book (c : Client) (book_id_ : Z) : M (response * Client) :=
  if negb (has_role c "admin") then ret (unauthorized c)
  else
    removed <- remove_book book_id_ ;;
    if (removed : bool) then
      ret (Redirect "admin_dashboard",
           flash c ("✅ Book ID " ++ py_str_int book_id_ ++ " removed successfully.")
             "success")
    else
      ret (Redirect "admin_dashboard",
           flash c ("⚠️ Book ID " ++ py_str_int book_id_ ++ " not found.")
             "warning").

(** [student_dashboard] *)
Definition student_dashboard (c : Client) : response * Client :=
  if negb (has_role c "student") then unauthorized c
  else (Render "student_dashboard.html", c).

(** The list item of a found book and of a recommended one. *)
Definition found_item (b : Book) : string :=
  "<li>**" ++ name b ++ "** (" ++ subject b ++ ") - Edition "
  ++ py_str_int (edition b) ++ " (ID: " ++ py_str_int (book_id b) ++ ")</li>".

Definition recommended_item (b : Book) : string :=
  "<li>**" ++ name b ++ "** - Edition " ++ py_str_int (edition b) ++ "</li>".

(** [for book in books: response_html += item(book)] *)
Definition add_items (item : Book -> string) (l : list Book) (response_html : string)
  : string :=
  fold_left (fun acc b => acc ++ item b) l response_html.

Section Chat.

Context {order : SetOrder}.

(** [student_chat]; [json_query] is [data.get('query')] when the key is
    there. *)
Definition student_chat (c : Client) (json_query : option string)
  : M (response * Client) :=
  if negb (has_role c "student") then
    ret (Json "Session expired. Please log in again." "danger" 401, c)
  else
    let query :=
      py_strip match json_query with Some q => q | None => "" end in
    if falsy query then
      ret (Json "Please ask a question about a book or subject." "warning" 200, c)
    else
      found_books <- find_books query ;;
      match found_books with
      | _ :: _ =>
          let response_html :=
            "✅ I found **" ++ py_str_int (Z.of_nat (List.length found_books))
            ++ "** book(s) matching your request for '" ++ query ++ "':<br><ul>" in
          ret (Json (add_items found_item found_books response_html ++ "</ul>")
                 "success" 200, c)
      | [] =>
          recommendation <- get_recommendations query found_books ;;
          match snd recommendation with
          | _ :: _ =>
              ret (Json (add_items recommended_item (snd recommendation)
                           (fst recommendation ++ "<br><ul>") ++ "</ul>")
                     "info" 200, c)
          | [] => ret (Json (fst recommendation) "warning" 200, c)
          end
      end.

End Chat.

(* ================================================================== *)
(** * Vocabulary of the statements *)
(* ================================================================== *)

(** A database file that holds no row yet, and the world in which the
    application starts on it. *)
Definition empty_store : Store := mkStore [] 0.

Definition fresh_world : World := mkWorld empty_store [] [].

(** The world once [DatabaseManager()] has run on the empty file. *)
Definition seeded_world : World := snd (_initialize_db fresh_world).


(** The world with one more line printed. *)
Definition logged (w : World) (line : string) : World :=
  mkWorld (db w) (engine w) (stdout w ++ [line]%list).

(** The term [q] occurs in the name or in the subject of [b], each
    lower-cased by SQLite and read as a C string. *)
Definition occurs_in_book (q : string) (b : Book) : bool :=
  py_in q (c_str (sql_lower (name b))) || py_in q (c_str (sql_lower (subject b))).

(** The substring condition on one book with Python's lower-casing on
    both sides. *)
Definition occurs_in_book_py (q : string) (b : Book) : bool :=
  py_in q (py_lower (name b)) || py_in q (py_lower (subject b)).

(** Text of ASCII characters without NUL. *)
Definition plain_text (s : string) : bool :=
  free_of (fun c => is_nul c || (128 <=? ord c)%N) s.

(** A computation that leaves the database as it found it. *)
Definition read_only {A} (m : M A) : Prop :=
  forall w, db (snd (m w)) = db w.

Definition organic_chemistry : Book :=
  mkBook 5 "Organic Chemistry" "Science" 1100 10.

(** Some row of the store carries the id. *)
Definition has_id (key : Z) (st : Store) : Prop :=
  exists b, In b (books st) /\ book_id b = key.

(** A row comes before the rows whose id is at most its own. *)
Definition id_ge (a b : Book) : Prop := book_id b <= book_id a.

(** A result of [get_recommendations] whose message is not empty. *)
Definition has_message (r : string * list Book) : Prop := fst r <> "".

(** The invariant of the table: rows in increasing rowid order (so no two
    share an id), every id between 1 and the AUTOINCREMENT counter, and
    the counter within the signed 64-bit range. *)
Definition well_formed (st : Store) : Prop :=
  StronglySorted Z.lt (map book_id (books st))
  /\ Forall (fun b => 1 <= book_id b <= seq st) (books st)
  /\ 0 <= seq st <= max_int64.

(** U+00C9 and U+00E9, the capital and the small e with acute accent. *)
Definition E_acute : ascii := ascii_of_N 201.
Definition e_acute : ascii := ascii_of_N 233.

(** A catalogue of one book whose subject starts with U+00C9. *)
Definition ecole_world : World :=
  mkWorld (mkStore [mkBook 1 "Cours" (String E_acute "cole") 5 1] 1) [] [].

(** Members in the order of their first insertion. *)
Instance first_seen : SetOrder.
Proof.
  refine {| set_iter := distinct |}.
  - induction l as [|x l IH]; simpl; constructor.
    + rewrite filter_In, String.eqb_refl. intros [_ H]. discriminate H.
    + now apply NoDup_filter.
  - induction l as [|x l IH]; intros s; simpl; [tauto|].
    rewrite filter_In, IH, negb_true_iff, String.eqb_neq.
    destruct (String.eqb_spec s x) as [->|Hne]; [tauto|].
    split; [tauto|]. intros [Heq|H]; [congruence|now right].
Defined.

(** Members in the reverse of that order. *)
Instance last_seen : SetOrder.
Proof.
  refine {| set_iter := fun l => rev (distinct l) |}.
  - intros l. apply NoDup_rev, (set_iter_NoDup (SetOrder := first_seen)).
  - intros l s. rewrite <- in_rev.
    apply (set_iter_In (SetOrder := first_seen)).
Defined.

(** What a computation may end with, whatever the world: a returned
    value satisfies [P], a raised exception satisfies [E]. *)
Definition post {A} (P : A -> Prop) (E : exn -> Prop) (m : M A) : Prop :=
  forall w,
    match fst (m w) with
    | Return a => P a
    | Raise e => E e
    end.

Definition is_sqlite3_error (e : exn) : Prop := exists msg, e = Sqlite3Error msg.

(** The suggestions for a target subject: its books, without those whose
    lower-cased name is the query. *)
Definition suggestions_for (query target_subject : string) (l : list Book)
  : list Book :=
  filter (fun b => negb (String.eqb (py_lower (name b)) query))
    (filter (fun b => String.eqb (subject b) target_subject) l).

(** Some book of the store has the subject. *)
Definition has_subject (s : string) (st : Store) : Prop :=
  exists b, In b (books st) /\ subject b = s.

(** [t] is the one subject of the store that contains the query. *)
Definition only_match (query t : string) (st : Store) : Prop :=
  has_subject t st
  /\ forall b, In b (books st) ->
       py_in query (py_lower (subject b)) = true -> subject b = t.

(** A catalogue of one book, named after the start of its subject. *)
Definition math_world : World :=
  mkWorld (mkStore [mkBook 1 "math" "Mathematics" 5 1] 1) [] [].

(** The rows that [executemany] inserts for the given tuples when the
    largest rowid used so far is [t]. *)
Fixpoint seed_rows (t : Z) (l : list (string * string * float * Z)) : list Book :=
  match l with
  | [] => []
  | (n, s, p, e) :: l' =>
      mkBook (t + 1) n s (stored_real p) e :: seed_rows (t + 1) l'
  end.

(** Text made of whitespace only. *)
Definition all_space (s : string) : bool :=
  free_of (fun c => negb (isspace c)) s.

(** One call of the data-access layer or of the search functions. *)
Inductive operation : Set :=
| Add (name subject : string) (price : float) (edition : Z)
| Remove (key : Z)
| ListAll
| Search (query : string)
| Recommend (query : string) (found_books : list Book).

(** The world after one call, whatever the call ends with, and after a
    sequence of calls. *)
Definition perform {order : SetOrder} (w : World) (op : operation) : World :=
  match op with
  | Add n s p e => snd (add_book n s p e w)
  | Remove key => snd (remove_book key w)
  | ListAll => snd (get_all_books w)
  | Search q => snd (find_books q w)
  | Recommend q found => snd (get_recommendations q found w)
  end.

Definition perform_all {order : SetOrder} (ops : list operation) (w : World)
  : World :=
  fold_left perform ops w.

(** One request to the application, with what the client sends. *)
Inductive request : Set :=
| GetIndex
| PostLogin (form_role form_password : option string)
| GetLogout
| GetAdmin
| PostAdminAdd (form_name form_subject form_price form_edition : string)
| PostAdminRemove (book_id_ : Z)
| GetStudent
| PostChat (json_query : option string).

(** The request is a login that presents the administrator's password. *)
Definition presents_admin_password (r : request) : bool :=
  match r with
  | PostLogin form_role form_password =>
      field_is form_role "admin" && field_is form_password "admin"
  | _ => false
  end.

Section Serving.

Variable py_float : string -> option float.
Variable py_int : string -> option Z.
Context {order : SetOrder}.

(** The view that serves a request. *)
Definition handle (r : request) (c : Client) : M (response * Client) :=
  match r with
  | GetIndex => ret (index c)
  | PostLogin form_role form_password => ret (login c form_role form_password)
  | GetLogout => ret (logout c)
  | GetAdmin => admin_dashboard c
  | PostAdminAdd n s p e => admin_add_book py_float py_int c n s p e
  | PostAdminRemove key => admin_remove_book c key
  | GetStudent => ret (student_dashboard c)
  | PostChat q => student_chat c q
  end.

(** The client and the world after a sequence of requests of one
    client; a view that raises leaves the client as it was. *)
Fixpoint serve (rs : list request) (c : Client) (w : World) : Client * World :=
  match rs with
  | [] => (c, w)
  | r :: rs' =>
      match handle r c w with
      | (Return (_, c'), w') => serve rs' c' w'
      | (Raise _, w') => serve rs' c w'
      end
  end.

End Serving.

(** Parsers of plain decimal numerals, enough to instantiate [int] and
    [float] in examples: they read a non-empty run of the digits 0-9 and
    nothing else. *)
Definition digit_value (c : ascii) : option Z :=
  let n := ord c in
  if ((48 <=? n) && (n <=? 57))%N then Some (Z.of_N (n - 48)) else None.

Fixpoint digits_value (s : string) (acc : Z) : option Z :=
  match s with
  | EmptyString => Some acc
  | String c s' =>
      match digit_value c with
      | Some d => digits_value s' (10 * acc + d)
      | None => None
      end
  end.

Definition example_int (s : string) : option Z :=
  match s with
  | EmptyString => None
  | _ => digits_value s 0
  end.

Definition float_of_digit (d : Z) : float :=
  match d with
  | 1 => 1 | 2 => 2 | 3 => 3 | 4 => 4 | 5 => 5
  | 6 => 6 | 7 => 7 | 8 => 8 | 9 => 9 | _ => 0
  end%float.

Fixpoint digits_float (s : string) (acc : float) : option float :=
  match s with
  | EmptyString => Some acc
  | String c s' =>
      match digit_value c with
      | Some d =>
          digits_float s' (PrimFloat.add (PrimFloat.mul acc 10) (float_of_digit d))
      | None => None
      end
  end.

Definition example_float (s : string) : option float :=
  match s with
  | EmptyString => None
  | _ => digits_float s 0
  end.

(* ================================================================== *)
(** * Facts about text *)
(* ================================================================== *)

Module TextFacts.

Ltac each_char c :=
  destruct c as [[|] [|] [|] [|] [|] [|] [|] [|]]; vm_compute; try reflexivity.

Lemma py_lower_char_not_upper c : is_ascii_upper (py_lower_char c) = false.
Proof. each_char c. Qed.

Lemma sql_lower_char_not_upper c : is_ascii_upper (sql_lower_char c) = false.
Proof. each_char c. Qed.

Lemma sql_lower_char_fixed c :
  is_ascii_upper c = false -> sql_lower_char c = c.
Proof. unfold sql_lower_char; intros ->; reflexivity. Qed.

Lemma free_of_map f g s :
  (forall c, f (g c) = false) -> free_of f (map_chars g s) = true.
Proof.
  intros Hfg; induction s as [|c s IH]; simpl; [reflexivity|].
  now rewrite Hfg, IH.
Qed.

Lemma py_lower_no_upper s : free_of is_ascii_upper (py_lower s) = true.
Proof. apply free_of_map, py_lower_char_not_upper. Qed.

Lemma sql_lower_no_upper s : free_of is_ascii_upper (sql_lower s) = true.
Proof. apply free_of_map, sql_lower_char_not_upper. Qed.

Lemma c_str_free_of f s : free_of f s = true -> free_of f (c_str s) = true.
Proof.
  induction s as [|c s IH]; simpl; [reflexivity|].
  intros H; apply andb_true_iff in H as [Hc Hs].
  destruct (ord c =? 0)%N; simpl; [reflexivity|].
  now rewrite Hc, IH.
Qed.

Lemma c_str_nul_free s : free_of is_nul s = true -> c_str s = s.
Proof.
  induction s as [|c s IH]; simpl; [reflexivity|].
  unfold is_nul at 1; intros H; apply andb_true_iff in H as [Hc Hs].
  destruct (ord c =? 0)%N; [discriminate|].
  now rewrite IH.
Qed.

Lemma free_of_app f s t :
  free_of f (s ++ t) = free_of f s && free_of f t.
Proof.
  induction s as [|c s IH]; simpl; [reflexivity|].
  now rewrite IH, andb_assoc.
Qed.

(** Between characters that are no ASCII capitals, [LIKE] compares
    plainly. *)
Lemma like_same_plain c c2 :
  is_ascii_upper c = false -> is_ascii_upper c2 = false ->
  like_same c c2 = Ascii.eqb c c2.
Proof.
  intros H1 H2; unfold like_same.
  rewrite (sql_lower_char_fixed _ H1), (sql_lower_char_fixed _ H2).
  destruct (Ascii.eqb c c2); [reflexivity|].
  now rewrite andb_false_r.
Qed.

Lemma prefix_cons a q b s :
  prefix (String a q) (String b s) = Ascii.eqb a b && prefix q s.
Proof.
  simpl; destruct (ascii_dec a b) as [->|Hne].
  - now rewrite Ascii.eqb_refl.
  - apply Ascii.eqb_neq in Hne; now rewrite Hne.
Qed.

Lemma prefix_app q s : prefix q (q ++ s) = true.
Proof.
  induction q as [|a q IH]; [now destruct s|].
  change (String a q ++ s) with (String a (q ++ s)).
  now rewrite prefix_cons, Ascii.eqb_refl.
Qed.

Lemma prefix_split q s : prefix q s = true -> exists t, s = q ++ t.
Proof.
  revert s; induction q as [|a q IH]; intros s H.
  - now exists s.
  - destruct s as [|b s]; [discriminate|].
    rewrite prefix_cons in H; apply andb_true_iff in H as [Hab Hq].
    apply Ascii.eqb_eq in Hab as ->.
    destruct (IH _ Hq) as [t ->]; now exists t.
Qed.

(** [q in s] holds exactly when [s] is some text, then [q], then some
    text. *)
Lemma py_in_spec q s :
  py_in q s = true <-> exists a b, s = a ++ q ++ b.
Proof.
  split.
  - induction s as [|c s IH]; cbn [py_in]; intros H.
    + rewrite orb_false_r in H. destruct (prefix_split _ _ H) as [t Ht].
      now exists "", t.
    + apply orb_true_iff in H as [H|H].
      * destruct (prefix_split _ _ H) as [t Ht]. now exists "", t.
      * destruct (IH H) as (a & b & ->). now exists (String c a), b.
  - intros (a & b & ->). induction a as [|c a IH].
    + change ("" ++ q ++ b) with (q ++ b).
      assert (Hp := prefix_app q b).
      destruct (q ++ b); cbn [py_in]; rewrite Hp; reflexivity.
    + change (String c a ++ q ++ b) with (String c (a ++ q ++ b)).
      simpl py_in. rewrite IH. apply orb_true_r.
Qed.

Lemma py_in_empty s : py_in "" s = true.
Proof. apply py_in_spec; now exists "", s. Qed.

Lemma py_in_of_empty q : py_in q "" = true -> q = "".
Proof. destruct q; [reflexivity | discriminate]. Qed.

(** One step of [%]: it stands for nothing, or for one more character. *)
Lemma like_match_all p s :
  like_match (String match_all p) s =
  like_match p s ||
  match s with
  | EmptyString => false
  | String _ s' => like_match (String match_all p) s'
  end.
Proof. destruct s; reflexivity. Qed.

Lemma like_match_other c p s :
  Ascii.eqb c match_all = false ->
  like_match (String c p) s =
  match s with
  | EmptyString => false
  | String c2 s' => (like_same c c2 || Ascii.eqb c match_one) && like_match p s'
  end.
Proof. intros H; simpl; now rewrite H. Qed.

Lemma like_percent s : like_match "%" s = true.
Proof.
  induction s as [|c s IH]; [reflexivity|].
  change "%" with (String match_all "") in *.
  rewrite like_match_all, IH. apply orb_true_r.
Qed.

(** [%%] is the pattern of the empty query: it accepts every text. *)
Lemma like_percent_percent s : like_match "%%" s = true.
Proof.
  change "%%" with (String match_all "%").
  rewrite like_match_all, like_percent. reflexivity.
Qed.

(** A literal term followed by [%] accepts the texts it starts. *)
Lemma like_literal_prefix q s :
  free_of is_wildcard q = true ->
  free_of is_ascii_upper q = true ->
  free_of is_ascii_upper s = true ->
  like_match (q ++ "%") s = prefix q s.
Proof.
  revert s; induction q as [|a q IH]; intros s Hw Hq Hs.
  - change ("" ++ "%") with "%". rewrite like_percent. now destruct s.
  - change (String a q ++ "%") with (String a (q ++ "%")).
    simpl in Hw, Hq.
    apply andb_true_iff in Hw as [Ha Hw], Hq as [Hua Hq].
    apply negb_true_iff in Ha, Hua.
    unfold is_wildcard in Ha. apply orb_false_iff in Ha as [Hall Hone].
    rewrite like_match_other by exact Hall.
    destruct s as [|b s]; [reflexivity|].
    simpl in Hs. apply andb_true_iff in Hs as [Hub Hs].
    apply negb_true_iff in Hub.
    rewrite prefix_cons, Hone, orb_false_r, like_same_plain by assumption.
    now rewrite IH.
Qed.

(** [%q%] with a literal [q] accepts the texts that contain [q]. *)
Lemma like_literal_contains q s :
  free_of is_wildcard q = true ->
  free_of is_ascii_upper q = true ->
  free_of is_ascii_upper s = true ->
  like_match ("%" ++ q ++ "%") s = py_in q s.
Proof.
  intros Hw Hq. change ("%" ++ q ++ "%") with (String match_all (q ++ "%")).
  induction s as [|b s IH]; intros Hs.
  - rewrite like_match_all, like_literal_prefix by assumption.
    simpl. reflexivity.
  - rewrite like_match_all, like_literal_prefix by assumption.
    simpl in Hs. apply andb_true_iff in Hs as [_ Hs].
    rewrite IH by assumption. reflexivity.
Qed.

(** The pattern that [find_books] binds, read by [LIKE] on a text that
    [LOWER] produced. *)
Lemma sql_like_literal q txt :
  literal_term (py_lower q) = true ->
  sql_like (sql_lower txt) ("%" ++ py_lower q ++ "%") =
  py_in (py_lower q) (c_str (sql_lower txt)).
Proof.
  unfold literal_term, sql_like. intros H.
  apply andb_true_iff in H as [Hw Hn].
  rewrite c_str_nul_free.
  - apply like_literal_contains; [assumption|apply py_lower_no_upper|].
    apply c_str_free_of, sql_lower_no_upper.
  - change ("%" ++ py_lower q ++ "%") with (String "%" (py_lower q ++ "%")).
    simpl. rewrite free_of_app, Hn. reflexivity.
Qed.

Lemma plain_char c :
  (is_nul c || (128 <=? ord c)%N) = false ->
  sql_lower_char c = py_lower_char c /\ (ord (sql_lower_char c) =? 0)%N = false.
Proof. each_char c; intros H; try discriminate H; split; reflexivity. Qed.

(** On ASCII text without NUL, what [LIKE] reads of [LOWER(s)] is
    [s.lower()]. *)
Lemma sql_lower_plain s : plain_text s = true -> c_str (sql_lower s) = py_lower s.
Proof.
  unfold plain_text. induction s as [|c s IH]; simpl; [reflexivity|].
  intros H. apply andb_true_iff in H as [Hc Hs]. apply negb_true_iff in Hc.
  destruct (plain_char c Hc) as [Heq Hnz]. rewrite Hnz, Heq.
  change (py_lower (String c s)) with (String (py_lower_char c) (py_lower s)).
  f_equal. now apply IH.
Qed.

Lemma sql_like_empty_query txt : sql_like txt "%%" = true.
Proof. unfold sql_like. apply like_percent_percent. Qed.

End TextFacts.

(* ================================================================== *)
(** * Facts about the storage engine and DatabaseManager *)
(* ================================================================== *)

(** Unfolds one run of a function of app.py down to the world. *)
Ltac run :=
  unfold get_all_books, add_book, remove_book, find_books,
    select_all_desc, select_where, insert_book, delete_book, bind_int,
    statement_prepares, statement_runs, try_except_sqlite3, _get_connection, print,
    get_db, put_db, bind, ret, raise;
  cbn beta iota.

Lemma filter_all {A} (f : A -> bool) (l : list A) :
  (forall x, In x l -> f x = true) -> filter f l = l.
Proof.
  induction l as [|x l IH]; intros H; simpl; [reflexivity|].
  rewrite (H x) by now left.
  f_equal. apply IH. intros y Hy. apply H. now right.
Qed.


Lemma filter_length_le {A} (f : A -> bool) (l : list A) :
  (List.length (filter f l) <= List.length l)%nat.
Proof.
  induction l as [|x l IH]; simpl; [lia|].
  destruct (f x); simpl; lia.
Qed.

Lemma filter_length_eq {A} (f : A -> bool) (l : list A) :
  List.length (filter f l) = List.length l -> filter f l = l.
Proof.
  induction l as [|x l IH]; simpl; [reflexivity|].
  destruct (f x); simpl; intros H.
  - f_equal. apply IH. lia.
  - pose proof (filter_length_le f l). lia.
Qed.

(** ** ORDER BY book_id DESC *)

Lemma insert_desc_perm b l : Permutation (insert_desc b l) (b :: l).
Proof.
  induction l as [|x l IH]; simpl; [reflexivity|].
  destruct (book_id x <=? book_id b); [reflexivity|].
  rewrite IH. apply perm_swap.
Qed.

Lemma order_by_book_id_desc_perm l :
  Permutation (order_by_book_id_desc l) l.
Proof.
  induction l as [|x l IH]; simpl; [reflexivity|].
  rewrite insert_desc_perm. now constructor.
Qed.

Lemma insert_desc_hd b x l :
  id_ge x b -> HdRel id_ge x l -> HdRel id_ge x (insert_desc b l).
Proof.
  intros Hxb Hl. destruct l as [|y l]; simpl.
  - now constructor.
  - destruct (book_id y <=? book_id b); constructor; [assumption|].
    now inversion Hl.
Qed.

Lemma insert_desc_sorted b l :
  Sorted id_ge l -> Sorted id_ge (insert_desc b l).
Proof.
  induction 1 as [|x l Hl IH Hhd]; simpl.
  - repeat constructor.
  - destruct (book_id x <=? book_id b) eqn:E.
    + constructor; [now constructor|]. constructor. unfold id_ge. lia.
    + constructor; [assumption|].
      apply insert_desc_hd; [unfold id_ge; lia | assumption].
Qed.

Lemma order_by_book_id_desc_sorted l :
  Sorted id_ge (order_by_book_id_desc l).
Proof.
  induction l as [|x l IH]; simpl; [constructor|].
  now apply insert_desc_sorted.
Qed.

(** ** Rowids *)

Lemma max_rowid_bound l b : In b l -> book_id b <= max_rowid l.
Proof.
  induction l as [|x l IH]; simpl; [tauto|].
  intros [->|H]; [lia|]. specialize (IH H). lia.
Qed.

(** ** One run of each function *)

Lemma get_all_books_ok w :
  next_fault w = NoFault ->
  get_all_books w = (Return (order_by_book_id_desc (books (db w))), opened w).
Proof. intros H. run. now rewrite H. Qed.

Lemma get_all_books_fault w msg :
  next_fault w = StatementFault msg ->
  get_all_books w =
  (Return [], logged (opened w) ("Error fetching books: " ++ msg)).
Proof. intros H. run. now rewrite H. Qed.

Lemma get_all_books_unprepared w msg :
  next_fault w = PrepareFault msg ->
  get_all_books w =
  (Return [], logged (opened w) ("Error fetching books: " ++ msg)).
Proof. intros H. run. now rewrite H. Qed.

Lemma get_all_books_no_connection w msg :
  next_fault w = ConnectFault msg ->
  get_all_books w = (Raise (Sqlite3Error msg), opened w).
Proof. intros H. run. now rewrite H. Qed.

Lemma find_books_ok w query :
  next_fault w = NoFault ->
  find_books query w =
  (Return (filter
     (fun b =>
        sql_like (sql_lower (name b)) ("%" ++ py_lower (py_strip query) ++ "%")
        || sql_like (sql_lower (subject b)) ("%" ++ py_lower (py_strip query) ++ "%"))
     (books (db w))),
   opened w).
Proof. intros H. run. now rewrite H. Qed.

Lemma find_books_fault w query msg :
  next_fault w = StatementFault msg ->
  find_books query w = (Return [], logged (opened w) ("Search error: " ++ msg)).
Proof. intros H. run. now rewrite H. Qed.

Lemma find_books_unprepared w query msg :
  next_fault w = PrepareFault msg ->
  find_books query w = (Return [], logged (opened w) ("Search error: " ++ msg)).
Proof. intros H. run. now rewrite H. Qed.

Lemma find_books_no_connection w query msg :
  next_fault w = ConnectFault msg ->
  find_books query w = (Raise (Sqlite3Error msg), opened w).
Proof. intros H. run. now rewrite H. Qed.



(** ** Computations that only read *)

Lemma read_only_ret {A} (a : A) : read_only (ret a).
Proof. intros w; reflexivity. Qed.

Lemma read_only_raise {A} e : read_only (@raise A e).
Proof. intros w; reflexivity. Qed.

Lemma read_only_bind {A B} (m : M A) (k : A -> M B) :
  read_only m -> (forall a, read_only (k a)) -> read_only (bind m k).
Proof.
  intros Hm Hk w. unfold bind. specialize (Hm w).
  destruct (m w) as [[a|e] w']; simpl in *; [|assumption].
  now rewrite Hk.
Qed.

Lemma read_only_try {A} (body : M A) handler :
  read_only body -> (forall e, read_only (handler e)) ->
  read_only (try_except_sqlite3 body handler).
Proof.
  intros Hb Hh w. unfold try_except_sqlite3. specialize (Hb w).
  destruct (body w) as [[a|[msg|msg|code]] w']; simpl in *; try assumption.
  now rewrite Hh.
Qed.

Lemma read_only_print line : read_only (print line).
Proof. intros w; reflexivity. Qed.

Lemma read_only_get_db : read_only get_db.
Proof. intros w; reflexivity. Qed.

Lemma read_only_get_connection : read_only _get_connection.
Proof. intros w. unfold _get_connection. now destruct (next_fault w). Qed.

Lemma read_only_statement_prepares conn : read_only (statement_prepares conn).
Proof. destruct conn as [[msg|] broken]; intros w; reflexivity. Qed.

Lemma read_only_statement_runs conn : read_only (statement_runs conn).
Proof. destruct conn as [unprepared [msg|]]; intros w; reflexivity. Qed.

Lemma read_only_select_where conn cond : read_only (select_where conn cond).
Proof.
  apply read_only_bind; [apply read_only_statement_prepares|intros _].
  apply read_only_bind; [apply read_only_statement_runs|intros _].
  apply read_only_bind; [apply read_only_get_db|intros st].
  apply read_only_ret.
Qed.

Lemma read_only_select_all_desc conn : read_only (select_all_desc conn).
Proof.
  apply read_only_bind; [apply read_only_statement_prepares|intros _].
  apply read_only_bind; [apply read_only_statement_runs|intros _].
  apply read_only_bind; [apply read_only_get_db|intros st].
  apply read_only_ret.
Qed.

Lemma read_only_handler {A} line (a : A) : read_only (print line ;; ret a).
Proof.
  apply read_only_bind; [apply read_only_print|intros _; apply read_only_ret].
Qed.

Lemma read_only_get_all_books : read_only get_all_books.
Proof.
  apply read_only_bind; [apply read_only_get_connection|intros conn].
  apply read_only_try; [apply read_only_select_all_desc|intros e].
  apply read_only_handler.
Qed.

Lemma read_only_find_books query : read_only (find_books query).
Proof.
  apply read_only_bind; [apply read_only_get_connection|intros conn].
  apply read_only_try; [apply read_only_select_where|intros e].
  apply read_only_handler.
Qed.

Lemma read_only_determine_target_subject {order : SetOrder} query found :
  read_only (determine_target_subject query found).
Proof.
  destruct found as [|b found]; simpl; [|apply read_only_ret].
  apply read_only_bind; [apply read_only_get_all_books|intros all_books].
  destruct (find _ _) as [s|]; [destruct (falsy s)|]; apply read_only_ret.
Qed.

Lemma read_only_retrieve_subject_books query target :
  read_only (retrieve_subject_books query target).
Proof.
  apply read_only_bind; [apply read_only_get_connection|intros conn].
  apply read_only_try; [|intros e; apply read_only_handler].
  apply read_only_bind; [apply read_only_select_where|intros rows].
  apply read_only_ret.
Qed.

Lemma read_only_get_recommendations {order : SetOrder} query found :
  read_only (get_recommendations query found).
Proof.
  apply read_only_bind; [apply read_only_determine_target_subject|].
  intros [early|target]; [apply read_only_ret|].
  apply read_only_retrieve_subject_books.
Qed.

(* ================================================================== *)
(** * Search *)
(* ================================================================== *)

(** C1, as stated, fails: the query [_] is no substring of the name or
    of the subject of "Organic Chemistry", under either lower-casing,
    and yet the search on the seeded catalogue returns that book (and
    every other one), because [LIKE] reads [_] as any one character. *)
Lemma find_books_wildcard_counterexample :
  fst (find_books "_" seeded_world) = Return (books (db seeded_world))
  /\ In organic_chemistry (books (db seeded_world))
  /\ occurs_in_book_py (py_lower (py_strip "_")) organic_chemistry = false
  /\ occurs_in_book (py_lower (py_strip "_")) organic_chemistry = false.
Proof.
  repeat split; try reflexivity.
  simpl. do 4 right. left. reflexivity.
Qed.

(** C1, amended: when the read does not fail and the trimmed,
    lower-cased query [q] holds none of the characters [%], [_] and NUL,
    [find_books] returns exactly the books of the store for which [q]
    is a substring of the name or of the subject, each lower-cased by
    SQLite's [LOWER] (ASCII letters only) and read up to its first NUL:
    every returned book satisfies the condition, and every book of the
    store that satisfies it is returned.  For a book whose name and
    subject are ASCII text without NUL the condition is that [q] is a
    substring of [name.lower()] or of [subject.lower()]. *)
Theorem find_books_literal_term (w : World) (query : string) :
  next_fault w = NoFault ->
  literal_term (py_lower (py_strip query)) = true ->
  find_books query w =
    (Return (filter (occurs_in_book (py_lower (py_strip query))) (books (db w))),
     opened w)
  /\ (forall b,
       In b (filter (occurs_in_book (py_lower (py_strip query))) (books (db w)))
       <-> In b (books (db w))
           /\ occurs_in_book (py_lower (py_strip query)) b = true)
  /\ forall b,
       plain_text (name b) = true -> plain_text (subject b) = true ->
       occurs_in_book (py_lower (py_strip query)) b
       = occurs_in_book_py (py_lower (py_strip query)) b.
Proof.
  intros Hok Hlit. split; [|split; [intros b; apply filter_In|]].
  - rewrite find_books_ok by assumption. do 2 f_equal.
    apply filter_ext. intros b. unfold occurs_in_book.
    now rewrite !TextFacts.sql_like_literal.
  - intros b Hn Hs. unfold occurs_in_book, occurs_in_book_py.
    now rewrite !TextFacts.sql_lower_plain.
Qed.

Lemma find_books_literal_term_witness :
  next_fault seeded_world = NoFault
  /\ literal_term (py_lower (py_strip "  SCIENCE ")) = true
  /\ fst (find_books "  SCIENCE " seeded_world) =
     Return (filter (occurs_in_book "science") (books (db seeded_world))).
Proof.
  split; [reflexivity|split; [reflexivity|]].
  rewrite (proj1 (find_books_literal_term seeded_world "  SCIENCE "
                    eq_refl eq_refl)).
  reflexivity.
Defined.

(** C9: with the empty string as query, and the read not failing,
    [find_books] returns every row of the store; the pattern it binds is
    [%%], which accepts every text. *)
Theorem find_books_empty_query (w : World) :
  next_fault w = NoFault ->
  find_books "" w = (Return (books (db w)), opened w).
Proof.
  intros Hok. rewrite find_books_ok by assumption. do 2 f_equal.
  apply filter_all. intros b _.
  change ("%" ++ py_lower (py_strip "") ++ "%") with "%%".
  now rewrite TextFacts.sql_like_empty_query.
Qed.

Lemma find_books_empty_query_witness :
  next_fault seeded_world = NoFault
  /\ find_books "" seeded_world =
     (Return (books (db seeded_world)), opened seeded_world).
Proof.
  split; [reflexivity|].
  exact (find_books_empty_query seeded_world eq_refl).
Defined.

(* ================================================================== *)
(** * Listing *)
(* ================================================================== *)

Lemma id_ge_trans a b c : id_ge a b -> id_ge b c -> id_ge a c.
Proof. unfold id_ge. lia. Qed.

(** C8: when the read does not fail, [get_all_books] returns every row
    of the store (the result is a rearrangement of the table), ordered by
    [book_id] descending, each row having every later row's id at most
    its own; on a store without rows it returns the empty list, and it
    returns rather than raises. *)
Theorem get_all_books_every_row_descending (w : World) :
  next_fault w = NoFault ->
  exists rows,
    get_all_books w = (Return rows, opened w)
    /\ Permutation rows (books (db w))
    /\ StronglySorted id_ge rows
    /\ (books (db w) = [] -> rows = []).
Proof.
  intros Hok. exists (order_by_book_id_desc (books (db w))).
  split; [now apply get_all_books_ok|].
  split; [apply order_by_book_id_desc_perm|].
  split.
  - apply Sorted_StronglySorted; [exact id_ge_trans|].
    apply order_by_book_id_desc_sorted.
  - intros ->. reflexivity.
Qed.

Lemma get_all_books_every_row_descending_witness :
  next_fault seeded_world = NoFault
  /\ exists rows,
       get_all_books seeded_world = (Return rows, opened seeded_world)
       /\ Permutation rows (books (db seeded_world))
       /\ StronglySorted id_ge rows
       /\ (books (db seeded_world) = [] -> rows = []).
Proof.
  split; [reflexivity|].
  exact (get_all_books_every_row_descending seeded_world eq_refl).
Defined.

(* ================================================================== *)
(** * Storage failures *)
(* ================================================================== *)

(** C5, as stated, fails: on the seeded catalogue, a read that raises
    "disk I/O error" makes [get_all_books] and [find_books] return the
    empty list to their caller, although the store holds five rows and
    "science" matches some of them when the read succeeds. *)
Lemma read_failure_counterexample :
  fst (get_all_books
         (mkWorld (db seeded_world) [StatementFault "disk I/O error"] []))
    = Return []
  /\ fst (find_books "science"
         (mkWorld (db seeded_world) [StatementFault "disk I/O error"] []))
    = Return []
  /\ List.length (books (db seeded_world)) = 5%nat
  /\ List.length (filter (occurs_in_book "science") (books (db seeded_world)))
     = 3%nat.
Proof. repeat split. Qed.

(** C5, amended: when the statement of the read raises [sqlite3.Error],
    [get_all_books] and [find_books] catch it, print one line naming the
    error and return the empty list, so the caller gets the very result
    and database of the same call on a store without rows; only an error
    raised while the connection is opened reaches the caller. *)
Theorem read_failure_is_swallowed (w : World) (query msg : string) :
  (next_fault w = StatementFault msg ->
     get_all_books w =
       (Return [], logged (opened w) ("Error fetching books: " ++ msg))
     /\ find_books query w =
       (Return [], logged (opened w) ("Search error: " ++ msg))
     /\ fst (get_all_books w)
        = fst (get_all_books (mkWorld empty_store [] (stdout w)))
     /\ fst (find_books query w)
        = fst (find_books query (mkWorld empty_store [] (stdout w))))
  /\ (next_fault w = ConnectFault msg ->
     get_all_books w = (Raise (Sqlite3Error msg), opened w)
     /\ find_books query w = (Raise (Sqlite3Error msg), opened w)).
Proof.
  split; intros H.
  - rewrite (get_all_books_fault _ _ H), (find_books_fault _ _ _ H).
    repeat split.
  - now rewrite (get_all_books_no_connection _ _ H),
      (find_books_no_connection _ _ _ H).
Qed.

Lemma read_failure_is_swallowed_witness :
  fst (get_all_books
         (mkWorld (db seeded_world) [StatementFault "disk I/O error"] []))
    = Return []
  /\ fst (find_books "science"
         (mkWorld (db seeded_world) [ConnectFault "unable to open database file"] []))
    = Raise (Sqlite3Error "unable to open database file").
Proof.
  split.
  - exact (f_equal fst (proj1 (proj1
      (read_failure_is_swallowed
         (mkWorld (db seeded_world) [StatementFault "disk I/O error"] [])
         "science" "disk I/O error") eq_refl))).
  - exact (f_equal fst (proj2 (proj2
      (read_failure_is_swallowed
         (mkWorld (db seeded_world) [ConnectFault "unable to open database file"] [])
         "science" "unable to open database file") eq_refl))).
Defined.

(* ================================================================== *)
(** * Reads leave the store alone *)
(* ================================================================== *)

(** C10: whatever the engine does, [find_books] and [get_recommendations]
    leave the database as they found it: the rows (and the rowid counter)
    after the call are those before it, for every world, query,
    found-books argument and set-iteration order. *)
Theorem search_and_recommend_read_only
    (order : SetOrder) (w : World) (query : string) (found_books : list Book) :
  db (snd (find_books query w)) = db w
  /\ db (snd (get_recommendations query found_books w)) = db w.
Proof.
  split.
  - apply read_only_find_books.
  - apply read_only_get_recommendations.
Qed.

(* ================================================================== *)
(** * Removing *)
(* ================================================================== *)

Lemma remove_book_run w key :
  remove_book key w =
  match next_fault w with
  | ConnectFault msg => (Raise (Sqlite3Error msg), opened w)
  | PrepareFault msg =>
      (Return false, logged (opened w) ("Error removing book: " ++ msg))
  | StatementFault msg =>
      if is_int64 key
      then (Return false, logged (opened w) ("Error removing book: " ++ msg))
      else (Raise (OverflowError overflow_message), opened w)
  | NoFault =>
      if is_int64 key
      then (Return (0 <? Z.of_nat (List.length (books (db w)))
                         - Z.of_nat (List.length (without_id key (books (db w))))),
            mkWorld (mkStore (without_id key (books (db w))) (seq (db w)))
              (tl (engine w)) (stdout w))
      else (Raise (OverflowError overflow_message), opened w)
  end.
Proof.
  run. destruct (next_fault w), (is_int64 key); reflexivity.
Qed.

Lemma without_id_absent key l b : In b (without_id key l) -> book_id b <> key.
Proof.
  unfold without_id. intros H. apply filter_In in H as [_ H].
  apply negb_true_iff, Z.eqb_neq in H. exact H.
Qed.

Lemma without_id_same key l :
  (forall b, In b l -> book_id b <> key) -> without_id key l = l.
Proof.
  intros H. apply filter_all. intros b Hb.
  apply negb_true_iff, Z.eqb_neq. now apply H.
Qed.

(** [rowcount > 0] says that some row carried the id. *)
Lemma rowcount_positive key l :
  (0 <? Z.of_nat (List.length l) - Z.of_nat (List.length (without_id key l))) = true
  <-> exists b, In b l /\ book_id b = key.
Proof.
  pose proof (filter_length_le (fun b => negb (book_id b =? key)) l) as Hle.
  fold (without_id key l) in Hle.
  rewrite Z.ltb_lt. split.
  - intros Hlt.
    destruct (existsb (fun b => book_id b =? key) l) eqn:E.
    + apply existsb_exists in E as (b & Hb & Hk).
      exists b. split; [assumption|now apply Z.eqb_eq].
    + rewrite without_id_same in Hlt; [lia|].
      intros b Hb Hk.
      assert (existsb (fun b => book_id b =? key) l = true); [|congruence].
      apply existsb_exists. exists b. split; [assumption|now apply Z.eqb_eq].
  - intros (b & Hb & Hk).
    assert (Hne : without_id key l <> l).
    { intros Heq. rewrite <- Heq in Hb.
      now apply without_id_absent in Hb. }
    assert (List.length (without_id key l) <> List.length l).
    { intros Hlen. apply Hne. now apply filter_length_eq. }
    lia.
Qed.




(* ================================================================== *)
(** * Adding *)
(* ================================================================== *)

Lemma add_book_run w name subject price edition :
  add_book name subject price edition w =
  match next_fault w with
  | ConnectFault msg => (Raise (Sqlite3Error msg), opened w)
  | PrepareFault msg =>
      (Return None, logged (opened w) ("Error adding book: " ++ msg))
  | StatementFault msg =>
      if is_int64 edition
      then (Return None, logged (opened w) ("Error adding book: " ++ msg))
      else (Raise (OverflowError overflow_message), opened w)
  | NoFault =>
      if is_int64 edition then
        if is_nan price then
          (Return None,
           logged (opened w)
             "Error adding book: NOT NULL constraint failed: books.price")
        else if max_int64 <=? top_rowid (db w) then
          (Return None,
           logged (opened w) "Error adding book: database or disk is full")
        else
          (Return (Some (top_rowid (db w) + 1)),
           mkWorld
             (mkStore
                (books (db w)
                 ++ [mkBook (top_rowid (db w) + 1) name subject
                       (stored_real price) edition])
                (top_rowid (db w) + 1))
             (tl (engine w)) (stdout w))
      else (Raise (OverflowError overflow_message), opened w)
  end.
Proof.
  run.
  destruct (next_fault w), (is_int64 edition); try reflexivity.
  simpl. destruct (is_nan price); [reflexivity|].
  destruct (max_int64 <=? _); reflexivity.
Qed.

(** C4, as stated, fails twice on the seeded catalogue: [add_book] with
    an empty name and an empty subject signals nothing, persists the row
    and returns its id 6; and when the write raises, [add_book] returns
    [None] to its caller instead of signalling an error. *)
Lemma add_book_counterexample :
  add_book "" "" 10 1 seeded_world =
    (Return (Some 6),
     mkWorld
       (mkStore (books (db seeded_world) ++ [mkBook 6 "" "" 10 1]) 6)
       [] (stdout seeded_world))
  /\ fst (add_book "X" "Y" 10 1
            (mkWorld (db seeded_world) [StatementFault "database is locked"] []))
     = Return None.
Proof. split; reflexivity. Qed.

(** C4, amended: [add_book] validates nothing and has no error type of
    its own; every run of it ends in one of the ways listed here.
    - The write succeeds (the engine raises nothing, the edition is a
      signed 64-bit integer, the price is not NaN and a rowid is left):
      exactly one new row is persisted, with the given name and subject,
      empty or not, the price as a REAL column gives it back and the
      given edition, under an id larger than every id of the store, and
      that id is returned.
    - The statement raises [sqlite3.Error], as it is prepared, or as it
      runs with the edition bound, or because the price is NaN or no
      rowid is left: the error is printed and [None] is returned.
    - [sqlite3.connect] raises: the [sqlite3.Error] reaches the caller.
    - The edition is no signed 64-bit integer and the statement was
      prepared: the [OverflowError] of the binding reaches the caller.
    Whenever no id is returned the database is unchanged, so no row is
    persisted. *)
Theorem add_book_outcomes
    (w : World) (name subject : string) (price : float) (edition : Z) :
  (next_fault w = NoFault -> is_int64 edition = true ->
   is_nan price = false -> top_rowid (db w) < max_int64 ->
     add_book name subject price edition w =
       (Return (Some (top_rowid (db w) + 1)),
        mkWorld
          (mkStore
             (books (db w)
              ++ [mkBook (top_rowid (db w) + 1) name subject
                    (stored_real price) edition])
             (top_rowid (db w) + 1))
          (tl (engine w)) (stdout w))
     /\ forall b, In b (books (db w)) -> book_id b < top_rowid (db w) + 1)
  /\ (forall msg, next_fault w = PrepareFault msg ->
        add_book name subject price edition w =
          (Return None, logged (opened w) ("Error adding book: " ++ msg)))
  /\ (forall msg, next_fault w = StatementFault msg -> is_int64 edition = true ->
        add_book name subject price edition w =
          (Return None, logged (opened w) ("Error adding book: " ++ msg)))
  /\ (next_fault w = NoFault -> is_int64 edition = true -> is_nan price = true ->
        add_book name subject price edition w =
          (Return None,
           logged (opened w)
             "Error adding book: NOT NULL constraint failed: books.price"))
  /\ (next_fault w = NoFault -> is_int64 edition = true ->
      is_nan price = false -> max_int64 <= top_rowid (db w) ->
        add_book name subject price edition w =
          (Return None,
           logged (opened w) "Error adding book: database or disk is full"))
  /\ (forall msg, next_fault w = ConnectFault msg ->
        add_book name subject price edition w =
          (Raise (Sqlite3Error msg), opened w))
  /\ (is_int64 edition = false ->
      next_fault w = NoFault \/ (exists msg, next_fault w = StatementFault msg) ->
        add_book name subject price edition w =
          (Raise (OverflowError overflow_message), opened w))
  /\ ((exists rowid, fst (add_book name subject price edition w) = Return (Some rowid))
      \/ db (snd (add_book name subject price edition w)) = db w).
Proof.
  rewrite add_book_run. repeat apply conj.
  - intros -> -> Hnan Htop. rewrite Hnan.
    apply Z.leb_gt in Htop. rewrite Htop. split; [reflexivity|].
    intros b Hb. apply max_rowid_bound in Hb. unfold top_rowid. lia.
  - intros msg ->. reflexivity.
  - intros msg -> ->. reflexivity.
  - intros -> -> ->. reflexivity.
  - intros -> -> -> Htop. apply Z.leb_le in Htop. rewrite Htop. reflexivity.
  - intros msg ->. reflexivity.
  - intros -> [->|[msg ->]]; reflexivity.
  - destruct (next_fault w), (is_int64 edition); try (right; reflexivity).
    destruct (is_nan price); [right; reflexivity|].
    destruct (max_int64 <=? _); [right; reflexivity|].
    left. eexists. reflexivity.
Qed.

Lemma add_book_outcomes_witness :
  fst (add_book "" "Y" 10 1 seeded_world) = Return (Some 6)
  /\ fst (add_book "X" "Y" 10 1
            (mkWorld (db seeded_world) [PrepareFault "database is locked"] []))
     = Return None
  /\ fst (add_book "X" "Y" 10 1
            (mkWorld (db seeded_world) [StatementFault "database is locked"] []))
     = Return None
  /\ fst (add_book "X" "Y" nan 1 seeded_world) = Return None
  /\ fst (add_book "X" "Y" 10 1
            (mkWorld (mkStore [] max_int64) [] []))
     = Return None
  /\ fst (add_book "X" "Y" 10 1
            (mkWorld (db seeded_world)
               [ConnectFault "unable to open database file"] []))
     = Raise (Sqlite3Error "unable to open database file")
  /\ fst (add_book "X" "Y" 10 (2 ^ 63) seeded_world)
     = Raise (OverflowError overflow_message).
Proof.
  pose (locked_early :=
          mkWorld (db seeded_world) [PrepareFault "database is locked"] []).
  pose (locked_late :=
          mkWorld (db seeded_world) [StatementFault "database is locked"] []).
  pose (full := mkWorld (mkStore [] max_int64) [] []).
  pose (closed :=
          mkWorld (db seeded_world)
            [ConnectFault "unable to open database file"] []).
  destruct (add_book_outcomes seeded_world "" "Y" 10 1)
    as (Hadded & _).
  destruct (add_book_outcomes locked_early "X" "Y" 10 1)
    as (_ & Hearly & _).
  destruct (add_book_outcomes locked_late "X" "Y" 10 1)
    as (_ & _ & Hlate & _).
  destruct (add_book_outcomes seeded_world "X" "Y" nan 1)
    as (_ & _ & _ & Hnan & _).
  destruct (add_book_outcomes full "X" "Y" 10 1)
    as (_ & _ & _ & _ & Hfull & _).
  destruct (add_book_outcomes closed "X" "Y" 10 1)
    as (_ & _ & _ & _ & _ & Hclosed & _).
  destruct (add_book_outcomes seeded_world "X" "Y" 10 (2 ^ 63))
    as (_ & _ & _ & _ & _ & _ & Hwide & _).
  refine (conj (f_equal fst (proj1 (Hadded eq_refl eq_refl eq_refl eq_refl)))
         (conj (f_equal fst (Hearly _ eq_refl))
         (conj (f_equal fst (Hlate _ eq_refl eq_refl))
         (conj (f_equal fst (Hnan eq_refl eq_refl eq_refl))
         (conj (f_equal fst (Hfull eq_refl eq_refl eq_refl _))
         (conj (f_equal fst (Hclosed _ eq_refl))
               (f_equal fst (Hwide eq_refl (or_introl eq_refl))))))))).
  unfold full, max_int64, top_rowid. simpl. lia.
Defined.

(* ================================================================== *)
(** * Recommendation *)
(* ================================================================== *)

(** ** Iteration orders of a set *)

Lemma set_iter_nil {order : SetOrder} : set_iter [] = [].
Proof.
  destruct (set_iter []) as [|s l] eqn:E; [reflexivity|].
  exfalso. apply (set_iter_In [] s). rewrite E. now left.
Qed.

Lemma find_unique {A} (p : A -> bool) (l : list A) (t : A) :
  In t l -> p t = true ->
  (forall x, In x l -> p x = true -> x = t) ->
  find p l = Some t.
Proof.
  induction l as [|x l IH]; simpl; [tauto|].
  intros Hin Hp Huniq. destruct (p x) eqn:E.
  - f_equal. apply Huniq; [now left|assumption].
  - destruct Hin as [->|Hin]; [congruence|].
    apply IH; [assumption..|]. intros y Hy. apply Huniq. now right.
Qed.

Lemma find_absent {A} (p : A -> bool) (l : list A) :
  (forall x, In x l -> p x = false) -> find p l = None.
Proof.
  induction l as [|x l IH]; simpl; [reflexivity|].
  intros H. rewrite (H x) by now left.
  apply IH. intros y Hy. apply H. now right.
Qed.

Lemma all_same_singleton (l : list string) (a : string) :
  NoDup l -> In a l -> (forall x, In x l -> x = a) -> l = [a].
Proof.
  intros Hnd Hin Hall. destruct l as [|x [|y l]]; [contradiction| |].
  - f_equal. apply Hall. now left.
  - exfalso. inversion Hnd as [|? ? Hx _]; subst. apply Hx.
    rewrite (Hall x), (Hall y); simpl; auto.
Qed.

(** ** What a run may end with *)

Lemma post_ret {A} (P : A -> Prop) E a : P a -> post P E (ret a).
Proof. intros H w. exact H. Qed.

Lemma post_raise {A} (P : A -> Prop) (E : exn -> Prop) e :
  E e -> post P E (raise e).
Proof. intros H w. exact H. Qed.

Lemma post_bind {A B} (Q : A -> Prop) (P : B -> Prop) E m k :
  post Q E m -> (forall a, Q a -> post P E (k a)) -> post P E (bind m k).
Proof.
  intros Hm Hk w. unfold bind. specialize (Hm w).
  destruct (m w) as [[a|e] w']; simpl in *; [|assumption].
  now apply Hk.
Qed.

Lemma post_try {A} (P : A -> Prop) E body handler :
  post P (fun _ => True) body ->
  (forall msg, post P E (handler msg)) ->
  (forall w, match fst (body w) with
             | Raise (Sqlite3Error _) | Return _ => True
             | Raise e => E e
             end) ->
  post P E (try_except_sqlite3 body handler).
Proof.
  intros Hb Hh Hother w. unfold try_except_sqlite3.
  specialize (Hb w). specialize (Hother w).
  destruct (body w) as [[a|[msg|msg|code]] w']; simpl in *; try assumption.
  apply Hh.
Qed.

Lemma post_get_connection :
  post (fun _ => True) is_sqlite3_error _get_connection.
Proof.
  intros w. unfold _get_connection.
  destruct (next_fault w); simpl; [exact I| |exact I|exact I]. now exists msg.
Qed.

Lemma select_where_raises conn cond w :
  match fst (select_where conn cond w) with
  | Raise (Sqlite3Error _) | Return _ => True
  | Raise _ => False
  end.
Proof. destruct conn as [[msg|] [msg'|]]; exact I. Qed.

Lemma select_all_desc_raises conn w :
  match fst (select_all_desc conn w) with
  | Raise (Sqlite3Error _) | Return _ => True
  | Raise _ => False
  end.
Proof. destruct conn as [[msg|] [msg'|]]; exact I. Qed.

Lemma post_get_all_books :
  post (fun _ => True) is_sqlite3_error get_all_books.
Proof.
  apply post_bind with (Q := fun _ => True); [apply post_get_connection|].
  intros conn _. apply post_try.
  - intros w. now destruct (fst (select_all_desc conn w)).
  - intros msg. apply post_bind with (Q := fun _ => True);
      [intros w; exact I|intros; now apply post_ret].
  - intros w. pose proof (select_all_desc_raises conn w) as H.
    destruct (fst (select_all_desc conn w)) as [a|[]]; tauto.
Qed.

Lemma no_match_message_present q l : no_match_message q l <> "".
Proof. discriminate. Qed.

Lemma related_message_present t : related_message t <> "".
Proof. discriminate. Qed.

Lemma post_determine_target_subject {order : SetOrder} query found :
  post (fun r => match r with inl early => has_message early | inr _ => True end)
    is_sqlite3_error (determine_target_subject query found).
Proof.
  destruct found as [|b found]; simpl; [|now apply post_ret].
  apply post_bind with (Q := fun _ => True); [apply post_get_all_books|].
  intros all_books _.
  destruct (find _ _) as [s|]; [destruct (falsy s)|]; apply post_ret;
    try exact I; apply no_match_message_present.
Qed.

Lemma post_retrieve_subject_books query target :
  post has_message is_sqlite3_error (retrieve_subject_books query target).
Proof.
  apply post_bind with (Q := fun _ => True); [apply post_get_connection|].
  intros conn _. apply post_try.
  - apply post_bind with (Q := fun _ => True).
    + intros w. now destruct (fst (select_where conn _ w)).
    + intros rows _. apply post_ret. apply related_message_present.
  - intros msg. apply post_bind with (Q := fun _ => True);
      [intros w; exact I|intros; apply post_ret; discriminate].
  - intros w. unfold bind.
    pose proof (select_where_raises conn
                  (fun b => String.eqb (subject b) target) w) as H.
    destruct (select_where conn _ w) as [[a|[]] w']; simpl in *; tauto.
Qed.

Lemma post_get_recommendations {order : SetOrder} query found :
  post has_message is_sqlite3_error (get_recommendations query found).
Proof.
  eapply post_bind; [apply post_determine_target_subject|].
  intros [early|target] H; [now apply post_ret|].
  apply post_retrieve_subject_books.
Qed.

(** ** One run of each step *)

Lemma retrieve_subject_books_ok query target w :
  next_fault w = NoFault ->
  retrieve_subject_books query target w =
  (Return (related_message target, suggestions_for query target (books (db w))),
   opened w).
Proof.
  intros H. unfold retrieve_subject_books. run. now rewrite H.
Qed.


Lemma determine_target_subject_ok {order : SetOrder} query w :
  next_fault w = NoFault ->
  determine_target_subject query [] w =
  let all_subjects :=
    set_iter (map subject (order_by_book_id_desc (books (db w)))) in
  let message :=
    no_match_message query
      match all_subjects with
      | [] => "No subjects available."
      | _ => concat ", " all_subjects
      end in
  match find (fun s => py_in query (py_lower s)) all_subjects with
  | None => (Return (inl (message, [])), opened w)
  | Some s =>
      if falsy s then (Return (inl (message, [])), opened w)
      else (Return (inr s), opened w)
  end.
Proof.
  intros H. unfold determine_target_subject, bind.
  rewrite get_all_books_ok by assumption. cbv zeta.
  destruct (find _ _) as [s|]; [destruct (falsy s)|]; reflexivity.
Qed.

Lemma suggestions_for_In query target l b :
  In b (suggestions_for query target l)
  <-> In b l /\ subject b = target /\ py_lower (name b) <> query.
Proof.
  unfold suggestions_for.
  rewrite !filter_In, negb_true_iff, String.eqb_eq, String.eqb_neq. tauto.
Qed.

(** The subjects that a set built from the listing iterates over are the
    subjects of the store. *)
Lemma listed_subjects {order : SetOrder} st s :
  In s (set_iter (map subject (order_by_book_id_desc (books st))))
  <-> has_subject s st.
Proof.
  rewrite set_iter_In, in_map_iff. unfold has_subject.
  split; intros (b & H1 & H2).
  - exists b. split; [|assumption].
    eapply Permutation_in; [apply order_by_book_id_desc_perm|assumption].
  - exists b. split; [assumption|].
    eapply Permutation_in; [symmetry; apply order_by_book_id_desc_perm|assumption].
Qed.

(** C2: when step 1 of [get_recommendations] selects the target subject
    [t] and the read of step 2 does not fail, the suggestions are exactly
    the books of the store whose subject equals [t], without every book
    whose lower-cased name equals the trimmed, lower-cased query, and
    the message is the one naming [t]; whenever [get_recommendations]
    returns, its message is not empty (it raises only when a connection
    cannot be opened); and the suggestions can be empty under a message
    that names a target subject, as for the query " Math" on a catalogue
    whose one book is "math" of "Mathematics". *)
Theorem recommendations_for_target_subject :
  (forall (order : SetOrder) (w w1 : World) (query t : string)
          (found_books : list Book),
     determine_target_subject (py_lower (py_strip query)) found_books w
       = (Return (inr t), w1) ->
     next_fault w1 = NoFault ->
     get_recommendations query found_books w =
       (Return (related_message t,
                suggestions_for (py_lower (py_strip query)) t (books (db w))),
        opened w1)
     /\ forall b,
          In b (suggestions_for (py_lower (py_strip query)) t (books (db w)))
          <-> In b (books (db w)) /\ subject b = t
              /\ py_lower (name b) <> py_lower (py_strip query))
  /\ (forall (order : SetOrder) (w : World) (query : string)
             (found_books : list Book),
        match fst (get_recommendations query found_books w) with
        | Return (message, _) => message <> ""
        | Raise e => is_sqlite3_error e
        end)
  /\ fst (@get_recommendations first_seen " Math" [] math_world)
     = Return (related_message "Mathematics", []).
Proof.
  split; [|split].
  - intros order w w1 query t found Hstep Hok.
    split; [|intros b; apply suggestions_for_In].
    pose proof (read_only_determine_target_subject
                  (py_lower (py_strip query)) found w) as Hdb.
    unfold get_recommendations, bind. rewrite Hstep in *. simpl in Hdb.
    rewrite retrieve_subject_books_ok by assumption. now rewrite Hdb.
  - intros order w query found.
    pose proof (post_get_recommendations query found w) as H.
    destruct (fst (get_recommendations query found w)) as [[m l]|e];
      exact H.
  - reflexivity.
Qed.

Lemma recommendations_for_target_subject_witness :
  determine_target_subject (order := first_seen)
      (py_lower (py_strip " Math")) [] math_world
    = (Return (inr "Mathematics"), opened math_world)
  /\ next_fault (opened math_world) = NoFault
  /\ get_recommendations (order := first_seen) " Math" [] math_world
     = (Return (related_message "Mathematics", []), opened (opened math_world)).
Proof.
  split; [reflexivity|split; [reflexivity|]].
  exact (proj1 (proj1 recommendations_for_target_subject
                  first_seen math_world (opened math_world)
                  " Math" "Mathematics" [] eq_refl eq_refl)).
Defined.

(** C3: when the found-books argument is empty, the listing does not
    fail and no subject of the store contains the trimmed, lower-cased
    query, [get_recommendations] returns (it does not raise) the empty
    suggestion list with the message
    "I couldn't find a direct match for '<query>'. Try searching one of
    these subjects: <subjects>", where <query> is the trimmed,
    lower-cased query and <subjects> lists, joined by ", ", every
    subject of the store once, or reads "No subjects available." when
    the store has none. *)
Theorem no_match_lists_every_subject
    (order : SetOrder) (w : World) (query : string) :
  next_fault w = NoFault ->
  (forall b, In b (books (db w)) ->
     py_in (py_lower (py_strip query)) (py_lower (subject b)) = false) ->
  exists subjects,
    NoDup subjects
    /\ (forall s, In s subjects <-> has_subject s (db w))
    /\ get_recommendations query [] w =
       (Return
          ("I couldn't find a direct match for '" ++ py_lower (py_strip query)
           ++ "'. Try searching one of these subjects: "
           ++ match subjects with
              | [] => "No subjects available."
              | _ => concat ", " subjects
              end,
           []),
        opened w).
Proof.
  intros Hok Hnone.
  exists (set_iter (map subject (order_by_book_id_desc (books (db w))))).
  split; [apply set_iter_NoDup|]. split; [intros s; apply listed_subjects|].
  unfold get_recommendations, bind.
  rewrite determine_target_subject_ok by assumption. cbv zeta.
  rewrite find_absent; [reflexivity|].
  intros s Hs. apply listed_subjects in Hs as (b & Hb & <-). now apply Hnone.
Qed.

Lemma no_match_lists_every_subject_witness :
  (exists subjects,
     NoDup subjects
     /\ (forall s, In s subjects <-> has_subject s (db seeded_world))
     /\ get_recommendations (order := first_seen) " Poetry " [] seeded_world =
        (Return
           ("I couldn't find a direct match for '" ++ "poetry"
            ++ "'. Try searching one of these subjects: "
            ++ match subjects with
               | [] => "No subjects available."
               | _ => concat ", " subjects
               end,
            []),
         opened seeded_world))
  /\ fst (get_recommendations (order := first_seen) " Poetry " [] seeded_world)
     = Return
         ("I couldn't find a direct match for 'poetry'. Try searching one of these subjects: Science, Mathematics, Computer Science",
          [])
  /\ fst (get_recommendations (order := first_seen) "Poetry" [] fresh_world)
     = Return
         ("I couldn't find a direct match for 'poetry'. Try searching one of these subjects: No subjects available.",
          []).
Proof.
  split; [|split; reflexivity].
  apply (no_match_lists_every_subject first_seen seeded_world " Poetry ").
  - reflexivity.
  - intros b Hb. simpl in Hb.
    repeat (destruct Hb as [<-|Hb]; [reflexivity|]). contradiction.
Defined.

(** ** Dependence on the iteration order of the subject set *)

(** C7, as stated, fails: on the seeded catalogue both "Science" and
    "Computer Science" contain the query "science"; the target subject
    is the first that the set of subjects yields, so two runs whose sets
    iterate in different orders return different messages and
    suggestions for the same store and query. *)
Lemma set_order_counterexample :
  fst (get_recommendations (order := first_seen) "science" [] seeded_world)
    = Return (related_message "Science", [organic_chemistry])
  /\ fst (get_recommendations (order := last_seen) "science" [] seeded_world)
    = Return (related_message "Computer Science",
              suggestions_for "science" "Computer Science"
                (books (db seeded_world)))
  /\ List.length (suggestions_for "science" "Computer Science"
                    (books (db seeded_world))) = 2%nat.
Proof. repeat split. Qed.

Lemma only_match_found {order : SetOrder} query t st :
  only_match query t st ->
  py_in query (py_lower t) = true ->
  find (fun s => py_in query (py_lower s))
    (set_iter (map subject (order_by_book_id_desc (books st)))) = Some t.
Proof.
  intros [Hhas Huniq] Hin. apply find_unique.
  - now apply listed_subjects.
  - exact Hin.
  - intros s Hs Hp. apply listed_subjects in Hs as (b & Hb & <-).
    now apply Huniq.
Qed.

(** When the one matching subject is the empty string, the query is
    empty too, every subject matches, and the set has that one member. *)
Lemma only_match_empty {order : SetOrder} query st :
  only_match query "" st ->
  py_in query (py_lower "") = true ->
  set_iter (map subject (order_by_book_id_desc (books st))) = [""].
Proof.
  intros [Hhas Huniq] Hin. apply TextFacts.py_in_of_empty in Hin. subst query.
  apply all_same_singleton.
  - apply set_iter_NoDup.
  - now apply listed_subjects.
  - intros s Hs. apply listed_subjects in Hs as (b & Hb & <-).
    apply Huniq; [assumption|apply TextFacts.py_in_empty].
Qed.

(** C7, amended: for a fixed world (store and engine behaviour) and
    query, the pair that [get_recommendations] returns does not depend
    on the order in which the set of subjects is iterated when the
    found-books argument is not empty, or when one subject of the store
    contains the trimmed, lower-cased query and no other does: any two
    runs then return the same message and suggestions. *)
Theorem get_recommendations_order_independent
    (order1 order2 : SetOrder) (w : World) (query : string)
    (found_books : list Book) :
  found_books <> []
  \/ (exists t, only_match (py_lower (py_strip query)) t (db w)
                /\ py_in (py_lower (py_strip query)) (py_lower t) = true) ->
  get_recommendations (order := order1) query found_books w
  = get_recommendations (order := order2) query found_books w.
Proof.
  intros H. destruct found_books as [|b found]; [|reflexivity].
  destruct H as [H|(t & Honly & Hin)]; [congruence|].
  unfold get_recommendations, bind.
  set (q := py_lower (py_strip query)) in *.
  destruct (next_fault w) as [|msg|msg|msg] eqn:Hf.
  - rewrite !determine_target_subject_ok by assumption. cbv zeta.
    rewrite !(only_match_found q t (db w)) by assumption.
    destruct t as [|c t]; [|reflexivity].
    simpl falsy. cbv iota.
    now rewrite !(only_match_empty q (db w)).
  - unfold determine_target_subject, bind.
    now rewrite (get_all_books_no_connection _ _ Hf).
  - unfold determine_target_subject, bind.
    rewrite (get_all_books_unprepared _ _ Hf). simpl map.
    now rewrite !set_iter_nil.
  - unfold determine_target_subject, bind.
    rewrite (get_all_books_fault _ _ Hf). simpl map.
    now rewrite !set_iter_nil.
Qed.

Lemma get_recommendations_order_independent_witness :
  set_iter (SetOrder := first_seen)
      (map subject (order_by_book_id_desc (books (db seeded_world))))
    = ["Science"; "Mathematics"; "Computer Science"]
  /\ set_iter (SetOrder := last_seen)
      (map subject (order_by_book_id_desc (books (db seeded_world))))
    = ["Computer Science"; "Mathematics"; "Science"]
  /\ only_match (py_lower (py_strip " Math")) "Mathematics" (db seeded_world)
  /\ get_recommendations (order := first_seen) " Math" [] seeded_world
     = get_recommendations (order := last_seen) " Math" [] seeded_world
  /\ fst (get_recommendations (order := last_seen) " Math" [] seeded_world)
     = Return (related_message "Mathematics",
               suggestions_for "math" "Mathematics" (books (db seeded_world)))
  /\ map book_id (suggestions_for "math" "Mathematics" (books (db seeded_world)))
     = [2; 4].
Proof.
  assert (H : only_match (py_lower (py_strip " Math")) "Mathematics"
                (db seeded_world)).
  { split.
    - exists (mkBook 2 "Calculus: Early Transcendentals" "Mathematics"
                980.50 8).
      split; [right; left; reflexivity|reflexivity].
    - intros b Hb. simpl in Hb.
      repeat (destruct Hb as [<-|Hb];
              [first [reflexivity | intros Hm; discriminate Hm]|]).
      contradiction. }
  assert (Heq : get_recommendations (order := first_seen) " Math" [] seeded_world
                = get_recommendations (order := last_seen) " Math" [] seeded_world).
  { apply (get_recommendations_order_independent first_seen last_seen
             seeded_world " Math" []).
    right. exists "Mathematics". split; [exact H|reflexivity]. }
  exact (conj eq_refl (conj eq_refl (conj H (conj Heq (conj eq_refl eq_refl))))).
Defined.

(* ================================================================== *)
(** * The invariant of the table *)
(* ================================================================== *)

Lemma well_formed_empty : well_formed empty_store.
Proof.
  repeat split; try constructor; unfold max_int64; simpl; lia.
Qed.

Lemma StronglySorted_snoc (l : list Z) (x : Z) :
  StronglySorted Z.lt l -> Forall (fun y => y < x) l ->
  StronglySorted Z.lt (l ++ [x]).
Proof.
  induction 1 as [|y l Hl IH Hy]; intros Hall; simpl.
  - repeat constructor.
  - inversion Hall as [|? ? Hyx Hrest]; subst. constructor; [now apply IH|].
    apply Forall_app. split; [assumption|]. now repeat constructor.
Qed.

Lemma StronglySorted_without_id key l :
  StronglySorted Z.lt (map book_id l) ->
  StronglySorted Z.lt (map book_id (without_id key l)).
Proof.
  induction l as [|x l IH]; simpl; intros H; [constructor|].
  inversion H as [|? ? Hl Hx]; subst.
  destruct (negb (book_id x =? key)); simpl; [|now apply IH].
  constructor; [now apply IH|].
  rewrite Forall_forall in *. intros y Hy. apply Hx.
  apply in_map_iff in Hy as (b & <- & Hb). apply in_map.
  unfold without_id in Hb. now apply filter_In in Hb.
Qed.

Lemma well_formed_top st : well_formed st -> top_rowid st = seq st.
Proof.
  intros (_ & Hall & Hseq). unfold top_rowid.
  assert (max_rowid (books st) <= seq st); [|lia].
  induction (books st) as [|x l IH]; simpl; [lia|].
  inversion Hall; subst. specialize (IH ltac:(assumption)). lia.
Qed.

Lemma well_formed_ids_distinct st :
  well_formed st -> NoDup (map book_id (books st)).
Proof.
  intros (Hs & _). induction Hs as [|x l Hl IH Hx]; constructor; [|assumption].
  intros Hin. rewrite Forall_forall in Hx. specialize (Hx _ Hin). lia.
Qed.

(** [add_book] keeps the invariant, whatever it ends with. *)
Lemma add_book_well_formed w name subject price edition :
  well_formed (db w) ->
  well_formed (db (snd (add_book name subject price edition w))).
Proof.
  intros Hwf. rewrite add_book_run.
  destruct (next_fault w), (is_int64 edition); try exact Hwf.
  destruct (is_nan price); [exact Hwf|].
  destruct (max_int64 <=? top_rowid (db w)) eqn:E; [exact Hwf|].
  apply Z.leb_gt in E. rewrite (well_formed_top _ Hwf) in *.
  destruct Hwf as (Hs & Hall & Hseq). simpl. repeat split; simpl.
  - rewrite map_app. apply StronglySorted_snoc; [assumption|].
    rewrite Forall_forall in *. intros y Hy.
    apply in_map_iff in Hy as (b & <- & Hb). specialize (Hall _ Hb).
    simpl in *. lia.
  - apply Forall_app. split.
    + rewrite Forall_forall in *. intros b Hb. specialize (Hall _ Hb).
      simpl in Hall. lia.
    + repeat constructor; simpl; lia.
  - lia.
  - lia.
Qed.

(** [remove_book] keeps the invariant, whatever it ends with. *)
Lemma remove_book_well_formed w key :
  well_formed (db w) -> well_formed (db (snd (remove_book key w))).
Proof.
  intros Hwf. rewrite remove_book_run.
  destruct (next_fault w), (is_int64 key); try exact Hwf.
  destruct Hwf as (Hs & Hall & Hseq). repeat split; simpl; try lia.
  - now apply StronglySorted_without_id.
  - rewrite Forall_forall in *. intros b Hb. apply Hall.
    unfold without_id in Hb. now apply filter_In in Hb.
Qed.

(** Seed bootstrap: initialising on an empty file gives the five seed
    rows, ids 1 to 5, and a table that satisfies the invariant. *)
Lemma seeded_world_rows :
  map (fun b => (book_id b, name b, subject b, edition b))
      (books (db seeded_world))
  = [ (1, "The C++ Programming Language", "Computer Science", 4);
      (2, "Calculus: Early Transcendentals", "Mathematics", 8);
      (3, "Introduction to Data Science", "Computer Science", 2);
      (4, "Linear Algebra and Its Applications", "Mathematics", 5);
      (5, "Organic Chemistry", "Science", 10) ]
  /\ well_formed (db seeded_world).
Proof.
  split; [reflexivity|].
  repeat split; simpl; unfold max_int64; try lia;
    repeat constructor; simpl; lia.
Qed.

Lemma insert_desc_last b l :
  (forall x, In x l -> book_id b < book_id x) -> insert_desc b l = (l ++ [b])%list.
Proof.
  induction l as [|x l IH]; intros H; simpl; [reflexivity|].
  assert (book_id b < book_id x) as Hx by (apply H; now left).
  apply Z.leb_gt in Hx. rewrite Hx. f_equal. apply IH.
  intros y Hy. apply H. now right.
Qed.

(** On a table that satisfies the invariant, the listing is the table
    read backwards: the most recently added row comes first. *)
Lemma order_by_book_id_desc_rev l :
  StronglySorted Z.lt (map book_id l) -> order_by_book_id_desc l = rev l.
Proof.
  induction l as [|x l IH]; simpl; intros H; [reflexivity|].
  inversion H as [|? ? Hl Hx]; subst. rewrite IH by assumption.
  apply insert_desc_last. intros y Hy. apply in_rev in Hy.
  rewrite Forall_forall in Hx. apply Hx. now apply in_map.
Qed.

Lemma get_all_books_most_recent_first w :
  next_fault w = NoFault -> well_formed (db w) ->
  get_all_books w = (Return (rev (books (db w))), opened w).
Proof.
  intros Hok (Hs & _). rewrite get_all_books_ok by assumption.
  now rewrite order_by_book_id_desc_rev.
Qed.

(** Add/list round trip: the row that [add_book] reports is in the next
    listing, with the fields given, the price as the column stores it. *)
Lemma add_book_then_listed w w1 name subject price edition rowid :
  add_book name subject price edition w = (Return (Some rowid), w1) ->
  next_fault w1 = NoFault ->
  exists rows,
    get_all_books w1 = (Return rows, opened w1)
    /\ In (mkBook rowid name subject (stored_real price) edition) rows.
Proof.
  rewrite add_book_run. intros Hadd Hok.
  exists (order_by_book_id_desc (books (db w1))).
  split; [now apply get_all_books_ok|].
  eapply Permutation_in; [symmetry; apply order_by_book_id_desc_perm|].
  destruct (next_fault w), (is_int64 edition); try discriminate.
  destruct (is_nan price); [discriminate|].
  destruct (max_int64 <=? _); [discriminate|].
  injection Hadd as <- <-. simpl. apply in_or_app. right. now left.
Qed.

(** Search sees the query only through its trimmed, lower-cased form. *)
Lemma find_books_normalised q1 q2 w :
  py_lower (py_strip q1) = py_lower (py_strip q2) ->
  find_books q1 w = find_books q2 w.
Proof. intros H. unfold find_books. now rewrite H. Qed.

Example find_books_python w :
  find_books "  PYTHON  " w = find_books "python" w.
Proof. now apply find_books_normalised. Qed.

(** The two lower-casings differ past ASCII: [LOWER] leaves U+00C9 as
    it is, so the search for the lower-cased subject finds nothing,
    while [str.lower] folds it, so the recommendation takes that very
    subject for its target. *)
Example lower_casings_differ :
  fst (find_books (String e_acute "cole") ecole_world) = Return []
  /\ fst (get_recommendations (order := first_seen)
            (String e_acute "cole") [] ecole_world)
     = Return (related_message (String E_acute "cole"),
               books (db ecole_world)).
Proof. split; reflexivity. Qed.

(* ================================================================== *)
(** * Sequences of operations *)
(* ================================================================== *)

(** What [add_book] has done when it returns an id. *)
Lemma add_book_returned w w1 name subject price edition rowid :
  add_book name subject price edition w = (Return (Some rowid), w1) ->
  rowid = top_rowid (db w) + 1
  /\ db w1 = mkStore
             (books (db w)
              ++ [mkBook rowid name subject (stored_real price) edition])
             rowid
  /\ next_fault w = NoFault.
Proof.
  rewrite add_book_run.
  destruct (next_fault w), (is_int64 edition); try discriminate.
  destruct (is_nan price); [discriminate|].
  destruct (max_int64 <=? _); [discriminate|].
  intros H. injection H as <- <-. repeat split.
Qed.

Lemma max_rowid_nonneg l : 0 <= max_rowid l.
Proof. induction l as [|x l IH]; simpl; lia. Qed.

Lemma top_rowid_bounds st : seq st <= top_rowid st /\ 0 <= top_rowid st.
Proof. unfold top_rowid. pose proof (max_rowid_nonneg (books st)). lia. Qed.

Lemma add_book_seq w name subject price edition :
  seq (db w) <= seq (db (snd (add_book name subject price edition w))).
Proof.
  rewrite add_book_run. pose proof (top_rowid_bounds (db w)).
  destruct (next_fault w), (is_int64 edition); simpl; try lia.
  destruct (is_nan price); simpl; [lia|].
  destruct (max_int64 <=? _); simpl; lia.
Qed.

Lemma remove_book_seq w key :
  seq (db (snd (remove_book key w))) = seq (db w).
Proof.
  rewrite remove_book_run.
  destruct (next_fault w), (is_int64 key); reflexivity.
Qed.

Lemma perform_seq {order : SetOrder} w op :
  seq (db w) <= seq (db (perform w op)).
Proof.
  destruct op; simpl.
  - apply add_book_seq.
  - rewrite remove_book_seq. lia.
  - rewrite read_only_get_all_books. lia.
  - rewrite read_only_find_books. lia.
  - rewrite read_only_get_recommendations. lia.
Qed.

Lemma perform_all_seq {order : SetOrder} ops w :
  seq (db w) <= seq (db (perform_all ops w)).
Proof.
  revert w. induction ops as [|op ops IH]; intros w; [simpl; lia|].
  change (perform_all (op :: ops) w) with (perform_all ops (perform w op)).
  pose proof (perform_seq w op). specialize (IH (perform w op)). lia.
Qed.

Lemma perform_well_formed {order : SetOrder} w op :
  well_formed (db w) -> well_formed (db (perform w op)).
Proof.
  intros H. destruct op; simpl.
  - now apply add_book_well_formed.
  - now apply remove_book_well_formed.
  - now rewrite read_only_get_all_books.
  - now rewrite read_only_find_books.
  - now rewrite read_only_get_recommendations.
Qed.

(** The table keeps its invariant through every sequence of calls of
    [add_book], [remove_book], [get_all_books], [find_books] and
    [get_recommendations], whatever each call ends with: the rows stay
    in increasing id order, so no two rows ever share a [book_id], and
    every id stays between 1 and the AUTOINCREMENT counter. *)
Theorem operations_keep_ids_unique
    (order : SetOrder) (ops : list operation) (w : World) :
  well_formed (db w) ->
  well_formed (db (perform_all ops w))
  /\ NoDup (map book_id (books (db (perform_all ops w)))).
Proof.
  intros H.
  assert (Hwf : well_formed (db (perform_all ops w))).
  { revert w H. induction ops as [|op ops IH]; intros w H; [exact H|].
    change (perform_all (op :: ops) w) with (perform_all ops (perform w op)).
    apply IH. now apply perform_well_formed. }
  split; [exact Hwf|now apply well_formed_ids_distinct].
Qed.

Lemma operations_keep_ids_unique_witness :
  well_formed (db seeded_world)
  /\ NoDup (map book_id
       (books (db (perform_all (order := first_seen)
          [Remove 2; Add "Emma" "Fiction" 12 3; Search "e"; Remove 9]
          seeded_world)))).
Proof.
  split; [exact (proj2 seeded_world_rows)|].
  exact (proj2 (operations_keep_ids_unique first_seen
                  [Remove 2; Add "Emma" "Fiction" 12 3; Search "e"; Remove 9]
                  seeded_world (proj2 seeded_world_rows))).
Defined.

(** An id is never handed out twice: when [add_book] returns an id, and
    later, after any sequence of calls (removals included), [add_book]
    returns an id again, the second id is larger than the first. *)
Theorem rowids_never_reused
    (order : SetOrder) (ops : list operation) (w : World)
    (name1 subject1 name2 subject2 : string) (price1 price2 : float)
    (edition1 edition2 rowid1 rowid2 : Z) :
  fst (add_book name1 subject1 price1 edition1 w) = Return (Some rowid1) ->
  fst (add_book name2 subject2 price2 edition2
         (perform_all ops (snd (add_book name1 subject1 price1 edition1 w))))
    = Return (Some rowid2) ->
  rowid1 < rowid2.
Proof.
  intros H1 H2.
  destruct (add_book name1 subject1 price1 edition1 w) as [r1 w1] eqn:E1.
  simpl in H1, H2. subst r1.
  destruct (add_book name2 subject2 price2 edition2 (perform_all ops w1))
    as [r2 w2] eqn:E2.
  simpl in H2. subst r2.
  apply add_book_returned in E1 as (_ & Hdb1 & _).
  apply add_book_returned in E2 as (-> & _ & _).
  pose proof (perform_all_seq ops w1) as Hmono.
  pose proof (top_rowid_bounds (db (perform_all ops w1))) as [Htop _].
  rewrite Hdb1 in Hmono. simpl in Hmono. lia.
Qed.

Lemma rowids_never_reused_witness :
  fst (add_book "Emma" "Fiction" 12 3 seeded_world) = Return (Some 6)
  /\ fst (add_book "Persuasion" "Fiction" 12 1
            (perform_all (order := first_seen) [Remove 6]
               (snd (add_book "Emma" "Fiction" 12 3 seeded_world))))
     = Return (Some 7)
  /\ 6 < 7.
Proof.
  split; [reflexivity|split; [reflexivity|]].
  exact (rowids_never_reused first_seen [Remove 6] seeded_world
           "Emma" "Fiction" "Persuasion" "Fiction" 12 12 3 1 6 7
           eq_refl eq_refl).
Defined.

(* ================================================================== *)
(** * Initialisation *)
(* ================================================================== *)

Lemma max_rowid_snoc l b : max_rowid (l ++ [b]) = Z.max (max_rowid l) (book_id b).
Proof.
  induction l as [|x l IH]; simpl; [lia|]. rewrite IH. lia.
Qed.

(** One INSERT on a connection without fault. *)
Lemma insert_book_ok w name subject price edition :
  is_int64 edition = true -> is_nan price = false ->
  top_rowid (db w) < max_int64 ->
  insert_book (Conn None None) name subject price edition w =
  (Return (top_rowid (db w) + 1),
   mkWorld
     (mkStore
        (books (db w)
         ++ [mkBook (top_rowid (db w) + 1) name subject
               (stored_real price) edition])
        (top_rowid (db w) + 1))
     (engine w) (stdout w)).
Proof.
  intros Hint Hnan Htop. apply Z.leb_gt in Htop.
  unfold insert_book, bind_int, statement_prepares, statement_runs,
    get_db, put_db, bind, ret, raise.
  rewrite Hint. cbn beta iota. now rewrite Hnan, Htop.
Qed.

Lemma insert_initial_data_ok l w :
  Forall (fun r => is_int64 (snd r) = true /\ is_nan (snd (fst r)) = false) l ->
  max_rowid (books (db w)) <= seq (db w) -> 0 <= seq (db w) ->
  seq (db w) + Z.of_nat (List.length l) <= max_int64 ->
  exists w',
    _insert_initial_data (Conn None None) l w = (Return tt, w')
    /\ books (db w') = (books (db w) ++ seed_rows (seq (db w)) l)%list
    /\ seq (db w') = seq (db w) + Z.of_nat (List.length l)
    /\ engine w' = engine w /\ stdout w' = stdout w.
Proof.
  revert w. induction l as [|[[[n s] p] e] l IH]; intros w Hall Hmax Hseq Hroom.
  - exists w. simpl. rewrite app_nil_r, Z.add_0_r. repeat split.
  - inversion Hall as [|? ? [Hint Hnan] Hrest]; subst. simpl in Hint, Hnan.
    assert (Htop : top_rowid (db w) = seq (db w)) by (unfold top_rowid; lia).
    cbn [_insert_initial_data]. unfold bind at 1.
    rewrite insert_book_ok by (try assumption; rewrite Htop; simpl in Hroom; lia).
    rewrite Htop.
    destruct (IH (mkWorld
                    (mkStore
                       (books (db w)
                        ++ [mkBook (seq (db w) + 1) n s (stored_real p) e])
                       (seq (db w) + 1)) (engine w) (stdout w)))
      as (w' & Hrun & Hbooks & Hseq' & Heng & Hout).
    + assumption.
    + simpl. rewrite max_rowid_snoc. simpl. lia.
    + simpl. lia.
    + simpl in *. lia.
    + exists w'. rewrite Hrun. simpl in *.
      rewrite Hbooks, Hseq', <- app_assoc. repeat split; try assumption. lia.
Qed.

Lemma initial_books_insertable :
  Forall (fun r => is_int64 (snd r) = true /\ is_nan (snd (fst r)) = false)
    initial_books.
Proof. repeat constructor. Qed.

Lemma initialize_db_run w :
  _initialize_db w =
  match next_fault w with
  | ConnectFault msg => (Raise (Sqlite3Error msg), opened w)
  | PrepareFault msg | StatementFault msg =>
      (Raise (SystemExit 1),
       logged (opened w) ("SQLite error during initialization: " ++ msg))
  | NoFault =>
      if Z.of_nat (List.length (books (db w))) =? 0 then
        match _insert_initial_data (Conn None None) initial_books (opened w) with
        | (Return _, w') =>
            (Return tt, logged w' "Database initialized with sample data.")
        | (Raise (Sqlite3Error msg), w') =>
            (Raise (SystemExit 1),
             logged (mkWorld (db w) (engine w') (stdout w'))
               ("SQLite error during initialization: " ++ msg))
        | (Raise e, w') => (Raise e, mkWorld (db w) (engine w') (stdout w'))
        end
      else (Return tt, opened w)
  end.
Proof.
  unfold _initialize_db, _get_connection, try_except_sqlite3, transaction, bind,
    statement_prepares, statement_runs, get_db, print, ret, raise.
  destruct (next_fault w); try reflexivity. cbn [db opened].
  destruct (Z.of_nat (List.length (books (db w))) =? 0); [|reflexivity].
  destruct (_insert_initial_data (Conn None None) initial_books (opened w))
    as [[[]|[msg|msg|code]] w']; reflexivity.
Qed.

(** [_initialize_db] leaves a table that holds a row as it is, whatever
    the engine does; it fills a table without rows, also one emptied by
    removals, with the five initial books under the five ids that follow
    the AUTOINCREMENT counter, and prints that it did; when a statement
    raises it prints the error and exits with status 1, the database
    unchanged; an error raised while the connection is opened is outside
    its handler and reaches the caller as it is. *)
Theorem initialize_db_outcomes (w : World) :
  (books (db w) <> [] -> db (snd (_initialize_db w)) = db w)
  /\ (next_fault w = NoFault -> books (db w) = [] ->
      0 <= seq (db w) -> seq (db w) + 5 <= max_int64 ->
        fst (_initialize_db w) = Return tt
        /\ db (snd (_initialize_db w))
           = mkStore (seed_rows (seq (db w)) initial_books) (seq (db w) + 5)
        /\ stdout (snd (_initialize_db w))
           = (stdout w ++ ["Database initialized with sample data."])%list)
  /\ (forall msg, next_fault w = StatementFault msg ->
        _initialize_db w =
          (Raise (SystemExit 1),
           logged (opened w) ("SQLite error during initialization: " ++ msg)))
  /\ (forall msg, next_fault w = ConnectFault msg ->
        _initialize_db w = (Raise (Sqlite3Error msg), opened w)).
Proof.
  rewrite initialize_db_run.
  split; [|split; [|split]].
  - intros Hrows. destruct (next_fault w); try reflexivity.
    destruct (books (db w)); [congruence|reflexivity].
  - intros -> Hrows Hseq Hroom. rewrite Hrows. cbn [List.length Z.of_nat Z.eqb].
    destruct (insert_initial_data_ok initial_books (opened w))
      as (w' & Hrun & Hbooks & Hseq' & Heng & Hout).
    + exact initial_books_insertable.
    + simpl. rewrite Hrows. simpl. lia.
    + exact Hseq.
    + simpl. lia.
    + rewrite Hrun. simpl in *. rewrite Hrows in Hbooks.
      simpl in Hbooks. rewrite Hout. repeat split.
      destruct (db w') as [b q]. simpl in *. now rewrite Hbooks, Hseq'.
  - intros msg ->. reflexivity.
  - intros msg ->. reflexivity.
Qed.

Lemma initialize_db_outcomes_witness :
  books (db seeded_world) <> []
  /\ db (snd (_initialize_db seeded_world)) = db seeded_world
  /\ books (db (snd (remove_book 5 (mkWorld (mkStore [organic_chemistry] 5) [] []))))
     = []
  /\ db (snd (_initialize_db
                (snd (remove_book 5 (mkWorld (mkStore [organic_chemistry] 5) [] [])))))
     = mkStore (seed_rows 5 initial_books) 10.
Proof.
  assert (H : books (db seeded_world) <> []) by discriminate.
  split; [exact H|].
  split; [exact (proj1 (initialize_db_outcomes seeded_world) H)|].
  split; [reflexivity|].
  exact (proj1 (proj2 (proj1 (proj2
           (initialize_db_outcomes
              (snd (remove_book 5 (mkWorld (mkStore [organic_chemistry] 5) [] [])))))
           eq_refl eq_refl ltac:(simpl; lia)
           ltac:(unfold max_int64; simpl; lia)))).
Defined.

(* ================================================================== *)
(** * How adding, removing and listing compose *)
(* ================================================================== *)

Lemma listing_of_well_formed w :
  well_formed (db w) -> next_fault w = NoFault ->
  fst (get_all_books w) = Return (rev (books (db w))).
Proof.
  intros Hwf Hok. now rewrite get_all_books_most_recent_first.
Qed.

Lemma well_formed_below_top st b :
  well_formed st -> In b (books st) -> book_id b < top_rowid st + 1.
Proof.
  intros Hwf Hb. apply max_rowid_bound in Hb. unfold top_rowid. lia.
Qed.

(** Add, then list: on a table that satisfies its invariant, the listing
    that follows a successful [add_book] is the new row, put before the
    listing as it was before the call; the row carries the id returned,
    the name, subject and edition given, and the price as the REAL
    column gives it back: the price given, but [+0.0] for the negative
    zero. *)
Theorem listing_after_add
    (w w1 : World) (name subject : string) (price : float)
    (edition rowid : Z) :
  well_formed (db w) ->
  add_book name subject price edition w = (Return (Some rowid), w1) ->
  next_fault w1 = NoFault ->
  exists rows,
    (forall w0, db w0 = db w -> next_fault w0 = NoFault ->
       fst (get_all_books w0) = Return rows)
    /\ fst (get_all_books w1)
       = Return (mkBook rowid name subject (stored_real price) edition :: rows).
Proof.
  intros Hwf Hadd Hok. exists (rev (books (db w))). split.
  - intros w0 Hdb Hok0. rewrite listing_of_well_formed by congruence.
    now rewrite Hdb.
  - pose proof (add_book_well_formed w name subject price edition Hwf) as Hwf1.
    rewrite Hadd in Hwf1. simpl in Hwf1.
    rewrite listing_of_well_formed by assumption.
    apply add_book_returned in Hadd as (_ & -> & _). simpl.
    now rewrite rev_app_distr.
Qed.

Lemma listing_after_add_witness :
  well_formed (db seeded_world)
  /\ (exists rows,
        (forall w0, db w0 = db seeded_world -> next_fault w0 = NoFault ->
           fst (get_all_books w0) = Return rows)
        /\ fst (get_all_books (snd (add_book "Emma" "Fiction" 12 3 seeded_world)))
           = Return (mkBook 6 "Emma" "Fiction" 12 3 :: rows))
  /\ (exists rows,
        (forall w0, db w0 = db seeded_world -> next_fault w0 = NoFault ->
           fst (get_all_books w0) = Return rows)
        /\ fst (get_all_books
                  (snd (add_book "Emma" "Fiction" neg_zero 3 seeded_world)))
           = Return (mkBook 6 "Emma" "Fiction" 0 3 :: rows)).
Proof.
  split; [exact (proj2 seeded_world_rows)|]. split.
  - exact (listing_after_add seeded_world
             (snd (add_book "Emma" "Fiction" 12 3 seeded_world))
             "Emma" "Fiction" 12 3 6 (proj2 seeded_world_rows) eq_refl eq_refl).
  - exact (listing_after_add seeded_world
             (snd (add_book "Emma" "Fiction" neg_zero 3 seeded_world))
             "Emma" "Fiction" neg_zero 3 6 (proj2 seeded_world_rows)
             eq_refl eq_refl).
Defined.

(** Remove, then list: on a table that satisfies its invariant, the
    listing that follows [remove_book] is the listing as it was before
    the call without the rows of that id when the call returned [True],
    and the listing as it was when it returned [False]. *)
Theorem listing_after_remove (w w1 : World) (key : Z) (removed : bool) :
  well_formed (db w) ->
  remove_book key w = (Return removed, w1) ->
  next_fault w1 = NoFault ->
  exists rows,
    (forall w0, db w0 = db w -> next_fault w0 = NoFault ->
       fst (get_all_books w0) = Return rows)
    /\ fst (get_all_books w1)
       = Return (if removed then without_id key rows else rows).
Proof.
  intros Hwf Hrem Hok. exists (rev (books (db w))). split.
  - intros w0 Hdb Hok0. rewrite listing_of_well_formed by congruence.
    now rewrite Hdb.
  - pose proof (remove_book_well_formed w key Hwf) as Hwf1.
    rewrite Hrem in Hwf1. simpl in Hwf1.
    rewrite listing_of_well_formed by assumption. f_equal.
    revert Hrem. rewrite remove_book_run.
    destruct (next_fault w), (is_int64 key); try discriminate;
      try (intros H; injection H as <- <-; reflexivity).
    intros H. injection H as <- <-. simpl.
    destruct (0 <? _) eqn:E.
    + unfold without_id. now rewrite filter_rev.
    + f_equal. apply without_id_same. intros b Hb Hk.
      assert (Hpos : (0 <? Z.of_nat (List.length (books (db w)))
                        - Z.of_nat (List.length (without_id key (books (db w)))))
                     = true); [|congruence].
      apply rowcount_positive. now exists b.
Qed.

Lemma listing_after_remove_witness :
  well_formed (db seeded_world)
  /\ exists rows,
       (forall w0, db w0 = db seeded_world -> next_fault w0 = NoFault ->
          fst (get_all_books w0) = Return rows)
       /\ fst (get_all_books (snd (remove_book 3 seeded_world)))
          = Return (without_id 3 rows).
Proof.
  split; [exact (proj2 seeded_world_rows)|].
  exact (listing_after_remove seeded_world (snd (remove_book 3 seeded_world))
           3 true (proj2 seeded_world_rows) eq_refl eq_refl).
Defined.

(** Add, then remove: on a table that satisfies its invariant, removing
    the id that [add_book] has just returned succeeds when the engine
    raises nothing, and leaves the rows exactly as they were before the
    addition; the AUTOINCREMENT counter keeps the id, which is not
    handed out again. *)
Theorem remove_undoes_add
    (w w1 : World) (name subject : string) (price : float)
    (edition rowid : Z) :
  well_formed (db w) ->
  add_book name subject price edition w = (Return (Some rowid), w1) ->
  next_fault w1 = NoFault ->
  fst (remove_book rowid w1) = Return true
  /\ books (db (snd (remove_book rowid w1))) = books (db w)
  /\ seq (db (snd (remove_book rowid w1))) = rowid.
Proof.
  intros Hwf Hadd Hok.
  destruct (add_book_returned _ _ _ _ _ _ _ Hadd) as (Hid & Hdb & _).
  assert (Hint : is_int64 rowid = true).
  { pose proof (top_rowid_bounds (db w)) as [_ Hpos].
    revert Hadd. rewrite add_book_run.
    destruct (next_fault w), (is_int64 edition); try discriminate.
    destruct (is_nan price); [discriminate|].
    destruct (max_int64 <=? top_rowid (db w)) eqn:E; [discriminate|].
    intros _. apply Z.leb_gt in E. unfold is_int64, min_int64 in *.
    apply andb_true_iff. split; apply Z.leb_le; simpl; lia. }
  assert (Hkept : without_id rowid (books (db w1)) = books (db w)).
  { rewrite Hdb. simpl. unfold without_id. rewrite filter_app. simpl.
    rewrite Z.eqb_refl. simpl. rewrite app_nil_r.
    apply without_id_same. intros b Hb.
    pose proof (well_formed_below_top _ _ Hwf Hb). lia. }
  rewrite remove_book_run, Hok, Hint. simpl. rewrite Hkept.
  split; [|split; [reflexivity|now rewrite Hdb]].
  f_equal. apply Z.ltb_lt. rewrite Hdb. simpl. rewrite length_app. simpl. lia.
Qed.

Lemma remove_undoes_add_witness :
  well_formed (db seeded_world)
  /\ fst (remove_book 6 (snd (add_book "Emma" "Fiction" 12 3 seeded_world)))
     = Return true
  /\ books (db (snd (remove_book 6
                       (snd (add_book "Emma" "Fiction" 12 3 seeded_world)))))
     = books (db seeded_world).
Proof.
  split; [exact (proj2 seeded_world_rows)|].
  destruct (remove_undoes_add seeded_world
              (snd (add_book "Emma" "Fiction" 12 3 seeded_world))
              "Emma" "Fiction" 12 3 6 (proj2 seeded_world_rows) eq_refl eq_refl)
    as (H1 & H2 & _).
  exact (conj H1 H2).
Defined.

(* ================================================================== *)
(** * What the search cannot miss, and what it does not look at *)
(* ================================================================== *)

(** A pattern, wildcards included, accepts the text that spells it. *)
Lemma like_accepts_itself q b : like_match (q ++ "%") (q ++ b) = true.
Proof.
  induction q as [|c q IH].
  - apply TextFacts.like_percent.
  - change (String c q ++ "%") with (String c (q ++ "%")).
    change (String c q ++ b) with (String c (q ++ b)).
    destruct (Ascii.eqb c match_all) eqn:E.
    + apply Ascii.eqb_eq in E. subst c.
      rewrite TextFacts.like_match_all.
      rewrite (TextFacts.like_match_all (q ++ "%") (q ++ b)), IH.
      apply orb_true_r.
    + rewrite TextFacts.like_match_other by assumption.
      unfold like_same. now rewrite Ascii.eqb_refl, IH.
Qed.

Lemma like_accepts_occurrence q a b :
  like_match ("%" ++ q ++ "%") (a ++ q ++ b) = true.
Proof.
  change ("%" ++ q ++ "%") with (String match_all (q ++ "%")).
  induction a as [|c a IH].
  - change ("" ++ q ++ b) with (q ++ b).
    rewrite TextFacts.like_match_all, like_accepts_itself. reflexivity.
  - change (String c a ++ q ++ b) with (String c (a ++ q ++ b)).
    rewrite TextFacts.like_match_all, IH. apply orb_true_r.
Qed.

(** [LIKE] accepts, under the pattern of [find_books], every text in
    which the term occurs as it is written, wildcards or not. *)
Lemma sql_like_occurrence q txt :
  free_of is_nul q = true -> py_in q (c_str txt) = true ->
  sql_like txt ("%" ++ q ++ "%") = true.
Proof.
  intros Hn Hin. unfold sql_like.
  rewrite (TextFacts.c_str_nul_free ("%" ++ q ++ "%")).
  - apply TextFacts.py_in_spec in Hin as (a & b & ->).
    apply like_accepts_occurrence.
  - change ("%" ++ q ++ "%") with (String "%" (q ++ "%")).
    simpl. now rewrite TextFacts.free_of_app, Hn.
Qed.

(** [find_books] never misses a written occurrence: whatever the query,
    a [%] or [_] in it included, as long as its trimmed, lower-cased
    form [q] holds no NUL, every book of the store in whose name or
    subject (lower-cased by SQLite, read up to the first NUL) [q] occurs
    as a substring is among the books returned, when the read does not
    fail. *)
Theorem find_books_never_misses (w : World) (query : string) (b : Book) :
  next_fault w = NoFault ->
  free_of is_nul (py_lower (py_strip query)) = true ->
  In b (books (db w)) ->
  occurs_in_book (py_lower (py_strip query)) b = true ->
  exists rows, find_books query w = (Return rows, opened w) /\ In b rows.
Proof.
  intros Hok Hn Hb Hocc. eexists. split; [now apply find_books_ok|].
  apply filter_In. split; [assumption|].
  unfold occurs_in_book in Hocc. apply orb_true_iff in Hocc as [H|H].
  - now rewrite (sql_like_occurrence _ _ Hn H).
  - rewrite (sql_like_occurrence _ (sql_lower (subject b)) Hn H).
    apply orb_true_r.
Qed.

Lemma find_books_never_misses_witness :
  occurs_in_book (py_lower (py_strip " C++ ")) 
    (mkBook 1 "The C++ Programming Language" "Computer Science" 750 4) = true
  /\ exists rows,
       find_books " C++ " seeded_world = (Return rows, opened seeded_world)
       /\ In (mkBook 1 "The C++ Programming Language" "Computer Science" 750 4) rows.
Proof.
  split; [reflexivity|].
  apply (find_books_never_misses seeded_world " C++ "); try reflexivity.
  left. reflexivity.
Defined.

(** ** Padding and letter case of the query *)

Ltac every_char c :=
  destruct c as [[|] [|] [|] [|] [|] [|] [|] [|]]; reflexivity.

Lemma isspace_py_lower_char c : isspace (py_lower_char c) = isspace c.
Proof. every_char c. Qed.

Lemma py_lower_char_idem c : py_lower_char (py_lower_char c) = py_lower_char c.
Proof. every_char c. Qed.

Lemma py_lower_idem s : py_lower (py_lower s) = py_lower s.
Proof.
  unfold py_lower. induction s as [|c s IH]; cbn [map_chars]; [reflexivity|].
  now rewrite py_lower_char_idem, IH.
Qed.

Lemma py_lstrip_lower s : py_lstrip (py_lower s) = py_lower (py_lstrip s).
Proof.
  unfold py_lower.
  induction s as [|c s IH]; cbn [map_chars py_lstrip]; [reflexivity|].
  rewrite isspace_py_lower_char. now destruct (isspace c).
Qed.

Lemma py_rstrip_lower s : py_rstrip (py_lower s) = py_lower (py_rstrip s).
Proof.
  unfold py_lower.
  induction s as [|c s IH]; cbn [map_chars py_rstrip]; [reflexivity|].
  rewrite IH, isspace_py_lower_char.
  destruct (py_rstrip s); cbn [map_chars]; [now destruct (isspace c)|reflexivity].
Qed.

(** Trimming and lower-casing can be done in either order. *)
Lemma py_strip_lower s : py_strip (py_lower s) = py_lower (py_strip s).
Proof. unfold py_strip. now rewrite py_lstrip_lower, py_rstrip_lower. Qed.

Lemma py_lstrip_all_space s : all_space s = true -> py_lstrip s = "".
Proof.
  induction s as [|c s IH]; simpl; [reflexivity|].
  intros H. apply andb_true_iff in H as [Hc Hs].
  rewrite negb_involutive in Hc. now rewrite Hc, IH.
Qed.

Lemma py_lstrip_pad pre s : all_space pre = true -> py_lstrip (pre ++ s) = py_lstrip s.
Proof.
  induction pre as [|c pre IH]; simpl; [reflexivity|].
  intros H. apply andb_true_iff in H as [Hc Hs].
  rewrite negb_involutive in Hc. now rewrite Hc, IH.
Qed.

Lemma py_rstrip_all_space s : all_space s = true -> py_rstrip s = "".
Proof.
  induction s as [|c s IH]; simpl; [reflexivity|].
  intros H. apply andb_true_iff in H as [Hc Hs].
  rewrite negb_involutive in Hc. now rewrite IH, Hc.
Qed.

Lemma py_rstrip_pad s post :
  all_space post = true -> py_rstrip (s ++ post) = py_rstrip s.
Proof.
  intros H. induction s as [|c s IH]; simpl.
  - now apply py_rstrip_all_space.
  - now rewrite IH.
Qed.

Lemma py_strip_pad pre post q :
  all_space pre = true -> all_space post = true ->
  py_strip (pre ++ q ++ post) = py_strip q.
Proof.
  intros Hpre Hpost. unfold py_strip. rewrite py_lstrip_pad by assumption.
  induction q as [|c q IH]; simpl.
  - now rewrite py_lstrip_all_space.
  - destruct (isspace c); [exact IH|].
    change (String c (q ++ post)) with (String c q ++ post).
    now apply py_rstrip_pad.
Qed.

(** Whitespace around the query and the case of its letters do not
    count: two queries whose lower-cased forms are equal, one of them
    padded with whitespace on either side, get the same result from
    [find_books] and from [get_recommendations], in every world. *)
Theorem query_padding_and_case_do_not_count
    (order : SetOrder) (w : World) (pre post q1 q2 : string)
    (found_books : list Book) :
  all_space pre = true -> all_space post = true ->
  py_lower q1 = py_lower q2 ->
  find_books (pre ++ q1 ++ post) w = find_books q2 w
  /\ get_recommendations (pre ++ q1 ++ post) found_books w
     = get_recommendations q2 found_books w.
Proof.
  intros Hpre Hpost Hcase.
  assert (Hnorm : py_lower (py_strip (pre ++ q1 ++ post)) = py_lower (py_strip q2)).
  { rewrite py_strip_pad by assumption.
    now rewrite <- !py_strip_lower, Hcase. }
  split; [now apply find_books_normalised|].
  unfold get_recommendations. now rewrite Hnorm.
Qed.

Lemma query_padding_and_case_do_not_count_witness :
  find_books ("  " ++ "PyThOn" ++ " ") seeded_world = find_books "python" seeded_world
  /\ get_recommendations (order := first_seen) ("  " ++ "PyThOn" ++ " ") []
       seeded_world
     = get_recommendations (order := first_seen) "python" [] seeded_world.
Proof.
  exact (query_padding_and_case_do_not_count first_seen seeded_world
           "  " " " "PyThOn" "python" [] eq_refl eq_refl eq_refl).
Defined.

(* ================================================================== *)
(** * What a recommendation can hold *)
(* ================================================================== *)

Lemma retrieve_subject_books_run query target w :
  retrieve_subject_books query target w =
  match next_fault w with
  | NoFault =>
      (Return (related_message target,
               suggestions_for query target (books (db w))), opened w)
  | ConnectFault msg => (Raise (Sqlite3Error msg), opened w)
  | PrepareFault msg | StatementFault msg =>
      (Return (error_message, []),
       logged (opened w) ("Recommendation error: " ++ msg))
  end.
Proof.
  unfold retrieve_subject_books. run. now destruct (next_fault w).
Qed.

(** The target that step 1 takes from the set of subjects is never the
    empty string: [if not matched_subject] sends it to the no-match
    message. *)
Lemma determine_target_subject_not_empty {order : SetOrder} query w w1 t :
  determine_target_subject query [] w = (Return (inr t), w1) -> t <> "".
Proof.
  unfold determine_target_subject, bind.
  destruct (get_all_books w) as [[all_books|e] w']; [|discriminate].
  cbv zeta. destruct (find _ _) as [s|]; [|discriminate].
  destruct s as [|c s]; simpl; [discriminate|].
  intros H. injection H as <- _. discriminate.
Qed.

(** Whatever the world, the query and the found-books argument, the
    suggestions that [get_recommendations] returns are rows of the
    store, all of one subject, none of them named (up to case) like the
    trimmed, lower-cased query; and when the found-books argument is
    empty none of them has the empty subject, even if the query is
    empty and a book of the store has no subject: the empty string is
    never a target. *)
Theorem suggestions_are_safe
    (order : SetOrder) (w w' : World) (query message : string)
    (found_books suggestions : list Book) :
  get_recommendations query found_books w = (Return (message, suggestions), w') ->
  (forall b, In b suggestions ->
     In b (books (db w)) /\ py_lower (name b) <> py_lower (py_strip query))
  /\ (forall b1 b2, In b1 suggestions -> In b2 suggestions ->
        subject b1 = subject b2)
  /\ (found_books = [] -> forall b, In b suggestions -> subject b <> "").
Proof.
  unfold get_recommendations, bind.
  pose proof (read_only_determine_target_subject
                (py_lower (py_strip query)) found_books w) as Hdb.
  destruct (determine_target_subject (py_lower (py_strip query)) found_books w)
    as [[[early|t]|e] w1] eqn:Hstep; [| |discriminate].
  - (* the no-match result: no suggestion *)
    unfold ret. intros H. injection H as -> _.
    assert (Hnil : snd (message, suggestions) = []).
    { revert Hstep. destruct found_books as [|b found]; [|discriminate].
      unfold determine_target_subject, bind.
      destruct (get_all_books w) as [[all_books|e] w2]; [|discriminate].
      cbv zeta. destruct (find _ _) as [s|]; [destruct (falsy s)|];
        intros H; try discriminate; now injection H as _ <- _. }
    simpl in Hnil. subst suggestions. repeat split; contradiction.
  - rewrite retrieve_subject_books_run. simpl in Hdb.
    destruct (next_fault w1); intros H; try discriminate;
      injection H as _ <- _.
    + rewrite Hdb. split; [|split].
      * intros b Hb. apply suggestions_for_In in Hb. tauto.
      * intros b1 b2 H1 H2. apply suggestions_for_In in H1, H2.
        destruct H1 as (_ & -> & _), H2 as (_ & -> & _). reflexivity.
      * intros -> b Hb. apply suggestions_for_In in Hb as (_ & -> & _).
        now apply determine_target_subject_not_empty in Hstep.
    + repeat split; contradiction.
    + repeat split; contradiction.
Qed.

Lemma suggestions_are_safe_witness :
  get_recommendations (order := first_seen) "science" [] seeded_world
    = (Return (related_message "Science", [organic_chemistry]),
       opened (opened seeded_world))
  /\ (forall b, In b [organic_chemistry] ->
        In b (books (db seeded_world))
        /\ py_lower (name b) <> py_lower (py_strip "science")).
Proof.
  split; [reflexivity|].
  exact (proj1 (suggestions_are_safe first_seen seeded_world
                  (opened (opened seeded_world)) "science"
                  (related_message "Science") [] [organic_chemistry] eq_refl)).
Defined.

(* ================================================================== *)
(** * An empty search leaves nothing to recommend *)
(* ================================================================== *)

Lemma filter_nil_none {A} (f : A -> bool) l x :
  filter f l = [] -> In x l -> f x = false.
Proof.
  intros Hnil Hx. destruct (f x) eqn:E; [|reflexivity].
  assert (In x (filter f l)) by (apply filter_In; tauto).
  rewrite Hnil in *. contradiction.
Qed.

Lemma c_str_no_nul s : free_of is_nul (c_str s) = true.
Proof.
  induction s as [|c s IH]; cbn [c_str]; [reflexivity|].
  destruct (ord c =? 0)%N eqn:E; cbn [free_of]; [reflexivity|].
  unfold is_nul at 1. now rewrite E, IH.
Qed.

Lemma free_of_occurrence f q s :
  free_of f s = true -> py_in q s = true -> free_of f q = true.
Proof.
  intros Hs Hin. apply TextFacts.py_in_spec in Hin as (a & b & ->).
  rewrite !TextFacts.free_of_app in Hs.
  apply andb_true_iff in Hs as [_ Hs]. now apply andb_true_iff in Hs as [Hs _].
Qed.

(** After a search that found nothing, no subject of ASCII text contains
    the query. *)
Lemma no_subject_after_empty_search w query b :
  next_fault w = NoFault ->
  fst (find_books query w) = Return [] ->
  In b (books (db w)) -> plain_text (subject b) = true ->
  py_in (py_lower (py_strip query)) (py_lower (subject b)) = false.
Proof.
  intros Hok Hnone Hb Hplain.
  rewrite find_books_ok in Hnone by assumption. cbn [fst] in Hnone.
  injection Hnone as Hnone.
  pose proof (filter_nil_none _ _ _ Hnone Hb) as Hrow. cbv beta in Hrow.
  apply orb_false_iff in Hrow as [_ Hsub].
  destruct (py_in _ (py_lower (subject b))) eqn:Hin; [|reflexivity].
  rewrite <- (TextFacts.sql_lower_plain _ Hplain) in Hin.
  change (String "%" (py_lower (py_strip query) ++ "%"))
    with ("%" ++ py_lower (py_strip query) ++ "%") in Hsub.
  rewrite sql_like_occurrence in Hsub; [discriminate| |exact Hin].
  eapply free_of_occurrence; [apply c_str_no_nul|exact Hin].
Qed.

Lemma get_recommendations_no_match {order : SetOrder} w query :
  (forall b, In b (books (db w)) ->
     py_in (py_lower (py_strip query)) (py_lower (subject b)) = false) ->
  match fst (get_recommendations query [] w) with
  | Return (message, suggestions) =>
      suggestions = []
      /\ exists listing,
           message = no_match_message (py_lower (py_strip query)) listing
  | Raise e => is_sqlite3_error e
  end.
Proof.
  intros Hnone. unfold get_recommendations, bind.
  destruct (next_fault w) as [|msg|msg|msg] eqn:Hf.
  - rewrite determine_target_subject_ok by assumption. cbv zeta.
    rewrite find_absent.
    + simpl. split; [reflexivity|]. eexists. reflexivity.
    + intros s Hs. apply listed_subjects in Hs as (b & Hb & <-).
      now apply Hnone.
  - unfold determine_target_subject, bind.
    rewrite (get_all_books_no_connection _ _ Hf). simpl. now exists msg.
  - unfold determine_target_subject, bind.
    rewrite (get_all_books_unprepared _ _ Hf). simpl map. rewrite set_iter_nil.
    simpl. split; [reflexivity|]. eexists. reflexivity.
  - unfold determine_target_subject, bind.
    rewrite (get_all_books_fault _ _ Hf). simpl map. rewrite set_iter_nil.
    simpl. split; [reflexivity|]. eexists. reflexivity.
Qed.

Lemma empty_search_nothing_to_recommend {order : SetOrder} w w2 query :
  next_fault w = NoFault ->
  (forall b, In b (books (db w)) -> plain_text (subject b) = true) ->
  fst (find_books query w) = Return [] ->
  db w2 = db w ->
  match fst (get_recommendations query [] w2) with
  | Return (message, suggestions) =>
      suggestions = []
      /\ exists listing,
           message = no_match_message (py_lower (py_strip query)) listing
  | Raise e => is_sqlite3_error e
  end.
Proof.
  intros Hok Hplain Hnone Hdb. apply get_recommendations_no_match.
  rewrite Hdb. intros b Hb.
  apply (no_subject_after_empty_search w); auto.
Qed.

(** When a search whose read did not fail has found nothing and the
    subjects of the store are ASCII text, no subject contains the query
    either, so the recommendation that follows on the same store never
    reaches a target subject: it returns no suggestion, under the
    message that lists the subjects, whatever the engine does then (or
    raises the error of a connection that cannot be opened). *)
Theorem empty_search_leaves_nothing_to_recommend
    (order : SetOrder) (w w2 : World) (query : string) :
  next_fault w = NoFault ->
  (forall b, In b (books (db w)) -> plain_text (subject b) = true) ->
  fst (find_books query w) = Return [] ->
  db w2 = db w ->
  match fst (get_recommendations query [] w2) with
  | Return (message, suggestions) =>
      suggestions = []
      /\ exists listing,
           message = no_match_message (py_lower (py_strip query)) listing
  | Raise e => is_sqlite3_error e
  end.
Proof.
  intros Hok Hplain Hnone Hdb.
  now apply (empty_search_nothing_to_recommend w).
Qed.

Lemma empty_search_leaves_nothing_to_recommend_witness :
  fst (find_books "poetry" seeded_world) = Return []
  /\ match fst (get_recommendations (order := first_seen) "poetry" []
                  (snd (find_books "poetry" seeded_world))) with
     | Return (message, suggestions) =>
         suggestions = []
         /\ exists listing,
              message = no_match_message (py_lower (py_strip "poetry")) listing
     | Raise e => is_sqlite3_error e
     end.
Proof.
  split; [reflexivity|].
  apply (empty_search_leaves_nothing_to_recommend first_seen seeded_world);
    try reflexivity.
  intros b Hb. simpl in Hb.
  repeat (destruct Hb as [<-|Hb]; [reflexivity|]). contradiction.
Defined.

(* ================================================================== *)
(** * The chat route *)
(* ================================================================== *)

Lemma py_strip_all_space s : all_space s = true -> py_strip s = "".
Proof.
  intros H. unfold py_strip. now rewrite py_lstrip_all_space.
Qed.

Lemma read_only_student_chat {order : SetOrder} c q :
  read_only (student_chat c q).
Proof.
  unfold student_chat.
  destruct (negb (has_role c "student")); [apply read_only_ret|].
  cbv zeta. destruct (falsy _); [apply read_only_ret|].
  apply read_only_bind; [apply read_only_find_books|].
  intros [|b found]; [|apply read_only_ret].
  apply read_only_bind; [apply read_only_get_recommendations|].
  intros [m [|b l]]; apply read_only_ret.
Qed.

Lemma post_find_books query :
  post (fun _ => True) is_sqlite3_error (find_books query).
Proof.
  intros w. unfold find_books. run.
  destruct (next_fault w); simpl; [exact I| |exact I|exact I]. now exists msg.
Qed.

(** Every answer of the chat is a JSON body handed back with the client
    as it came. *)
Lemma post_student_chat {order : SetOrder} c q :
  post (fun r => snd r = c /\ exists m t s, fst r = Json m t s)
    is_sqlite3_error (student_chat c q).
Proof.
  unfold student_chat.
  destruct (negb (has_role c "student")).
  { apply post_ret. split; [reflexivity|]. now eexists _, _, _. }
  cbv zeta. destruct (falsy _).
  { apply post_ret. split; [reflexivity|]. now eexists _, _, _. }
  eapply post_bind; [apply post_find_books|].
  intros [|b found] _.
  - eapply post_bind; [apply post_get_recommendations|].
    intros [m [|b l]] _; apply post_ret; (split; [reflexivity|]);
      now eexists _, _, _.
  - apply post_ret. split; [reflexivity|]. now eexists _, _, _.
Qed.

(** The chat changes nothing: whatever the client, the query and the
    engine, [student_chat] leaves the database as it is and hands the
    client back as it came, role and flashed messages untouched; and for
    a client that is no student, or a query that is absent or made of
    whitespace only, it answers without opening a connection. *)
Theorem student_chat_changes_nothing
    (order : SetOrder) (c : Client) (json_query : option string) (w : World) :
  db (snd (student_chat c json_query w)) = db w
  /\ (forall r c' w', student_chat c json_query w = (Return (r, c'), w') -> c' = c)
  /\ (has_role c "student" = false
      \/ all_space match json_query with Some q => q | None => "" end = true ->
      exists m t s, student_chat c json_query w = (Return (Json m t s, c), w)).
Proof.
  split; [apply read_only_student_chat|split].
  - intros r c' w' H. pose proof (post_student_chat c json_query w) as Hp.
    rewrite H in Hp. simpl in Hp. tauto.
  - unfold student_chat. intros [Hrole|Hblank].
    + rewrite Hrole. simpl. now eexists _, _, _.
    + destruct (negb (has_role c "student")); [now eexists _, _, _|].
      cbv zeta. rewrite py_strip_all_space by assumption. simpl.
      now eexists _, _, _.
Qed.

Lemma student_chat_changes_nothing_witness :
  all_space "   " = true
  /\ exists m t s,
       student_chat (order := first_seen) (mkClient (Some "student") [])
         (Some "   ")
         (mkWorld (db seeded_world) [ConnectFault "unable to open database file"] [])
       = (Return (Json m t s, mkClient (Some "student") []),
          mkWorld (db seeded_world) [ConnectFault "unable to open database file"] []).
Proof.
  split; [reflexivity|].
  exact (proj2 (proj2 (student_chat_changes_nothing first_seen
           (mkClient (Some "student") []) (Some "   ")
           (mkWorld (db seeded_world)
              [ConnectFault "unable to open database file"] [])))
           (or_intror eq_refl)).
Defined.

(** On a store whose subjects are ASCII text, with the read of the
    search not failing, the chat of a student never answers with
    recommended titles: its answer is of type "success" when the search
    found a book and of type "warning" otherwise, never of type "info",
    whatever the query (or the view raises the error of a second
    connection that cannot be opened). *)
Theorem student_chat_never_recommends_on_ascii_subjects
    (order : SetOrder) (c : Client) (json_query : option string) (w : World) :
  has_role c "student" = true ->
  next_fault w = NoFault ->
  (forall b, In b (books (db w)) -> plain_text (subject b) = true) ->
  match fst (student_chat c json_query w) with
  | Return (Json _ type status, _) =>
      (type = "success" \/ type = "warning") /\ status = 200
  | Return _ => False
  | Raise e => is_sqlite3_error e
  end.
Proof.
  intros Hrole Hok Hplain. unfold student_chat. rewrite Hrole. cbv zeta.
  cbn [negb]. 
  set (query := py_strip match json_query with Some q => q | None => "" end).
  destruct (falsy query); [simpl; auto|].
  unfold bind at 1.
  pose proof (find_books_ok w query Hok) as Hfind.
  destruct (find_books query w) as [[found|e] w1] eqn:E; [|discriminate].
  injection Hfind as Hfound Hw1.
  destruct found as [|b found]; [|simpl; auto].
  pose proof (empty_search_nothing_to_recommend w w1 query Hok Hplain) as Hrec.
  rewrite E in Hrec. specialize (Hrec eq_refl ltac:(now rewrite Hw1)).
  unfold bind.
  destruct (get_recommendations query [] w1) as [[[m l]|e] w2]; simpl in *.
  - destruct Hrec as [-> _]. simpl. auto.
  - exact Hrec.
Qed.

Lemma student_chat_never_recommends_on_ascii_subjects_witness :
  match fst (student_chat (order := first_seen) (mkClient (Some "student") [])
               (Some "poetry") seeded_world) with
  | Return (Json _ type status, _) =>
      (type = "success" \/ type = "warning") /\ status = 200
  | Return _ => False
  | Raise e => is_sqlite3_error e
  end.
Proof.
  apply (student_chat_never_recommends_on_ascii_subjects first_seen
           (mkClient (Some "student") []) (Some "poetry") seeded_world);
    try reflexivity.
  intros b Hb. simpl in Hb.
  repeat (destruct Hb as [<-|Hb]; [reflexivity|]). contradiction.
Defined.

(* ================================================================== *)
(** * The administrator's routes *)
(* ================================================================== *)

Section AdminRoutes.

Variable py_float : string -> option float.
Variable py_int : string -> option Z.

Lemma has_role_flash c m t r : has_role (flash c m t) r = has_role c r.
Proof. reflexivity. Qed.

(** [admin_add_book] never raises: whatever the client, the four fields,
    the engine and the readings of [float] and [int], it answers with a
    redirect and flashes exactly one message, the role untouched.  The
    message is of category "success" only when both fields were read
    and one row was added under the id that the message names, with the
    name and subject of the form, the edition as read, and the price as
    the REAL column gives back the one read ([+0.0] for a negative
    zero); under every other message the database is unchanged; in
    particular a price or an edition that cannot be read flashes the
    error of category "danger" without a connection being opened. *)
Theorem admin_add_book_never_raises
    (c : Client) (form_name form_subject form_price form_edition : string)
    (w : World) :
  exists target message category w',
    admin_add_book py_float py_int c form_name form_subject form_price
      form_edition w
    = (Return (Redirect target, flash c message category), w')
    /\ (category = "success" ->
        has_role c "admin" = true
        /\ exists price edition rowid,
             py_float form_price = Some price
             /\ py_int form_edition = Some edition
             /\ db w' = mkStore
                  (books (db w)
                   ++ [mkBook rowid form_name form_subject
                         (stored_real price) edition])
                  rowid
             /\ message = "✅ Book '" ++ form_name
                          ++ "' added successfully! ID: " ++ py_str_int rowid)
    /\ (category <> "success" -> db w' = db w)
    /\ (py_float form_price = None \/ py_int form_edition = None ->
        w' = w /\ category = "danger").
Proof.
  unfold admin_add_book.
  destruct (has_role c "admin") eqn:Hrole; cbn [negb].
  2:{ eexists _, _, _, _. split; [reflexivity|].
      split; [discriminate|]. split; [reflexivity|]. intros _. now split. }
  destruct (py_float form_price) as [price|] eqn:Hp.
  2:{ eexists _, _, _, _. split; [reflexivity|].
      split; [discriminate|]. split; [reflexivity|]. intros _. now split. }
  destruct (py_int form_edition) as [edition|] eqn:He.
  2:{ eexists _, _, _, _. split; [reflexivity|].
      split; [discriminate|]. split; [reflexivity|]. intros _. now split. }
  unfold try_except_Exception, bind. rewrite add_book_run.
  pose proof (top_rowid_bounds (db w)) as [_ Hpos].
  destruct (next_fault w), (is_int64 edition);
    try (eexists _, _, _, _; split; [reflexivity|];
         split; [discriminate|]; split; [reflexivity|];
         intros [H|H]; discriminate H).
  destruct (is_nan price);
    [eexists _, _, _, _; split; [reflexivity|];
     split; [discriminate|]; split; [reflexivity|];
     intros [H|H]; discriminate H|].
  destruct (max_int64 <=? top_rowid (db w));
    [eexists _, _, _, _; split; [reflexivity|];
     split; [discriminate|]; split; [reflexivity|];
     intros [H|H]; discriminate H|].
  assert (Hnz : (top_rowid (db w) + 1 =? 0) = false) by (apply Z.eqb_neq; lia).
  rewrite Hnz. cbn [ret].
  eexists _, _, _, _. split; [reflexivity|]. split; [|split].
  - intros _. split; [reflexivity|]. now eexists _, _, _.
  - intros H. now elim H.
  - intros [H|H]; discriminate H.
Qed.

(** [admin_remove_book] for an administrator.  When the engine raises
    nothing and the id is a signed 64-bit integer it answers with a
    redirect and one flashed message: "removed successfully" exactly
    when a row with the id was there and has been deleted, "not found"
    otherwise.  It says "not found" too when the DELETE raised a storage
    error, whether or not the row is there, the database unchanged: for
    every id when the statement fails as it is prepared, and for a
    signed 64-bit id when it fails as it runs.  It has no handler of its
    own: the error of a connection that cannot be opened, and the
    [OverflowError] of an id outside the 64-bit range bound to a
    statement that was prepared, leave the view as exceptions. *)
Theorem admin_remove_book_outcomes (c : Client) (key : Z) (w : World) :
  has_role c "admin" = true ->
  (next_fault w = NoFault -> is_int64 key = true ->
     (has_id key (db w) ->
        fst (admin_remove_book c key w)
        = Return (Redirect "admin_dashboard",
                  flash c ("✅ Book ID " ++ py_str_int key
                           ++ " removed successfully.") "success")
        /\ books (db (snd (admin_remove_book c key w)))
           = without_id key (books (db w)))
     /\ (~ has_id key (db w) ->
        fst (admin_remove_book c key w)
        = Return (Redirect "admin_dashboard",
                  flash c ("⚠️ Book ID " ++ py_str_int key ++ " not found.")
                    "warning")
        /\ db (snd (admin_remove_book c key w)) = db w))
  /\ (forall msg, next_fault w = PrepareFault msg ->
        admin_remove_book c key w
        = (Return (Redirect "admin_dashboard",
                   flash c ("⚠️ Book ID " ++ py_str_int key ++ " not found.")
                     "warning"),
           logged (opened w) ("Error removing book: " ++ msg)))
  /\ (forall msg, next_fault w = StatementFault msg -> is_int64 key = true ->
        admin_remove_book c key w
        = (Return (Redirect "admin_dashboard",
                   flash c ("⚠️ Book ID " ++ py_str_int key ++ " not found.")
                     "warning"),
           logged (opened w) ("Error removing book: " ++ msg)))
  /\ (forall msg, next_fault w = ConnectFault msg ->
        admin_remove_book c key w = (Raise (Sqlite3Error msg), opened w))
  /\ (is_int64 key = false ->
      next_fault w = NoFault \/ (exists msg, next_fault w = StatementFault msg) ->
        admin_remove_book c key w
        = (Raise (OverflowError overflow_message), opened w)).
Proof.
  intros Hrole. unfold admin_remove_book, bind. rewrite Hrole. cbn [negb].
  rewrite remove_book_run. repeat apply conj.
  - intros -> ->. split.
    + intros Hhas. apply rowcount_positive in Hhas. rewrite Hhas. now split.
    + intros Hno.
      assert (Hsame : without_id key (books (db w)) = books (db w)).
      { apply without_id_same. intros b Hb Hk. apply Hno. now exists b. }
      rewrite Hsame, Z.sub_diag. simpl. split; [reflexivity|].
      now destruct (db w).
  - intros msg ->. reflexivity.
  - intros msg -> ->. reflexivity.
  - intros msg ->. reflexivity.
  - intros -> [->|[msg ->]]; reflexivity.
Qed.

Lemma admin_remove_book_outcomes_witness :
  has_role (mkClient (Some "admin") []) "admin" = true
  /\ has_id 5 (db seeded_world)
  /\ fst (admin_remove_book (mkClient (Some "admin") []) 5 seeded_world)
     = Return (Redirect "admin_dashboard",
               flash (mkClient (Some "admin") [])
                 ("✅ Book ID " ++ py_str_int 5 ++ " removed successfully.")
                 "success")
  /\ admin_remove_book (mkClient (Some "admin") []) (2 ^ 63)
       (mkWorld (db seeded_world) [PrepareFault "database is locked"] [])
     = (Return (Redirect "admin_dashboard",
                flash (mkClient (Some "admin") [])
                  ("⚠️ Book ID " ++ py_str_int (2 ^ 63) ++ " not found.")
                  "warning"),
        logged (opened (mkWorld (db seeded_world)
                          [PrepareFault "database is locked"] []))
          ("Error removing book: " ++ "database is locked"))
  /\ admin_remove_book (mkClient (Some "admin") []) 5
       (mkWorld (db seeded_world) [StatementFault "database is locked"] [])
     = (Return (Redirect "admin_dashboard",
                flash (mkClient (Some "admin") [])
                  ("⚠️ Book ID " ++ py_str_int 5 ++ " not found.") "warning"),
        logged (opened (mkWorld (db seeded_world)
                          [StatementFault "database is locked"] []))
          ("Error removing book: " ++ "database is locked"))
  /\ admin_remove_book (mkClient (Some "admin") []) (2 ^ 63)
       (mkWorld (db seeded_world) [StatementFault "database is locked"] [])
     = (Raise (OverflowError overflow_message),
        opened (mkWorld (db seeded_world)
                  [StatementFault "database is locked"] []))
  /\ admin_remove_book (mkClient (Some "admin") []) (2 ^ 63) seeded_world
     = (Raise (OverflowError overflow_message), opened seeded_world).
Proof.
  pose (admin := mkClient (Some "admin") []).
  pose (locked_early :=
          mkWorld (db seeded_world) [PrepareFault "database is locked"] []).
  pose (locked_late :=
          mkWorld (db seeded_world) [StatementFault "database is locked"] []).
  assert (Hhas : has_id 5 (db seeded_world)).
  { exists organic_chemistry. split; [|reflexivity].
    simpl. do 4 right. left. reflexivity. }
  destruct (admin_remove_book_outcomes admin 5 seeded_world eq_refl)
    as (Hthere & _).
  destruct (admin_remove_book_outcomes admin (2 ^ 63) locked_early eq_refl)
    as (_ & Hearly & _).
  destruct (admin_remove_book_outcomes admin 5 locked_late eq_refl)
    as (_ & _ & Hlate & _).
  destruct (admin_remove_book_outcomes admin (2 ^ 63) locked_late eq_refl)
    as (_ & _ & _ & _ & Hwide_late).
  destruct (admin_remove_book_outcomes admin (2 ^ 63) seeded_world eq_refl)
    as (_ & _ & _ & _ & Hwide).
  exact (conj eq_refl (conj Hhas
          (conj (proj1 (proj1 (Hthere eq_refl eq_refl) Hhas))
          (conj (Hearly _ eq_refl)
          (conj (Hlate _ eq_refl eq_refl)
          (conj (Hwide_late eq_refl (or_intror (ex_intro _ _ eq_refl)))
                (Hwide eq_refl (or_introl eq_refl)))))))).
Defined.

Context {order : SetOrder}.

(** One request of a client that is no administrator and that does not
    present the administrator's password: the database is as before,
    and the client is still no administrator. *)
Lemma handle_without_password r c w :
  has_role c "admin" = false -> presents_admin_password r = false ->
  db (snd (handle py_float py_int r c w)) = db w
  /\ forall resp c' w',
       handle py_float py_int r c w = (Return (resp, c'), w') ->
       has_role c' "admin" = false.
Proof.
  intros Hrole Hpw. destruct r; simpl in *.
  - split; [reflexivity|]. intros resp c' w' H. now injection H as _ <- _.
  - split; [reflexivity|]. intros resp c' w'. unfold ret, login.
    rewrite Hpw. destruct (field_is form_role "student");
      intros H; injection H as _ <- _; [reflexivity|exact Hrole].
  - split; [reflexivity|]. intros resp c' w' H. now injection H as _ <- _.
  - unfold admin_dashboard. rewrite Hrole. simpl.
    split; [reflexivity|]. intros resp c' w' H. now injection H as _ <- _.
  - unfold admin_add_book. rewrite Hrole. simpl.
    split; [reflexivity|]. intros resp c' w' H. now injection H as _ <- _.
  - unfold admin_remove_book. rewrite Hrole. simpl.
    split; [reflexivity|]. intros resp c' w' H. now injection H as _ <- _.
  - split; [reflexivity|]. intros resp c' w'. unfold ret, student_dashboard.
    destruct (negb (has_role c "student")); intros H; injection H as _ <- _;
      exact Hrole.
  - split; [apply read_only_student_chat|].
    intros resp c' w' H.
    pose proof (post_student_chat c json_query w) as Hp.
    rewrite H in Hp. simpl in Hp. destruct Hp as [-> _]. exact Hrole.
Qed.

(** Without the administrator's password the catalogue cannot be
    changed: a client that is no administrator, whatever sequence of
    requests it sends (logins as student or with a wrong password,
    logout, the administrator's views, additions and removals, the
    chat), as long as no login presents role "admin" with password
    "admin", leaves the database exactly as it was and is no
    administrator at the end. *)
Theorem no_change_without_admin_password
    (rs : list request) (c : Client) (w : World) :
  has_role c "admin" = false ->
  forallb (fun r => negb (presents_admin_password r)) rs = true ->
  db (snd (serve py_float py_int rs c w)) = db w
  /\ has_role (fst (serve py_float py_int rs c w)) "admin" = false.
Proof.
  revert c w. induction rs as [|r rs IH]; intros c w Hrole Hrs.
  - now split.
  - cbn [forallb] in Hrs. apply andb_true_iff in Hrs as [Hr Hrs].
    apply negb_true_iff in Hr.
    destruct (handle_without_password r c w Hrole Hr) as [Hdb Hc].
    cbn [serve].
    destruct (handle py_float py_int r c w) as [[[resp c']|e] w'] eqn:E;
      simpl in Hdb.
    + destruct (IH c' w' (Hc _ _ _ eq_refl) Hrs) as [H1 H2].
      split; [congruence|exact H2].
    + destruct (IH c w' Hrole Hrs) as [H1 H2].
      split; [congruence|exact H2].
Qed.

End AdminRoutes.

Lemma admin_add_book_never_raises_witness :
  exists target message category w',
    admin_add_book example_float example_int (mkClient (Some "admin") [])
      "Emma" "Fiction" "12" "three" seeded_world
    = (Return (Redirect target,
               flash (mkClient (Some "admin") []) message category), w')
    /\ w' = seeded_world /\ category = "danger".
Proof.
  destruct (admin_add_book_never_raises example_float example_int
              (mkClient (Some "admin") []) "Emma" "Fiction" "12" "three"
              seeded_world)
    as (target & message & category & w' & Hrun & _ & _ & Hbad).
  exists target, message, category, w'.
  split; [exact Hrun|]. exact (Hbad (or_intror eq_refl)).
Defined.

(** The form's price "-0.0" is read by [float] as the negative zero, and
    the row added holds [+0.0]. *)
Example admin_add_book_negative_zero :
  admin_add_book (fun _ => Some neg_zero) example_int
    (mkClient (Some "admin") []) "Emma" "Fiction" "-0.0" "3" seeded_world
  = (Return (Redirect "admin_dashboard",
             flash (mkClient (Some "admin") [])
               ("✅ Book '" ++ "Emma" ++ "' added successfully! ID: " ++ "6")
               "success"),
     mkWorld
       (mkStore (books (db seeded_world) ++ [mkBook 6 "Emma" "Fiction" 0 3]) 6)
       [] (stdout seeded_world)).
Proof. reflexivity. Qed.

Lemma no_change_without_admin_password_witness :
  db (snd (serve example_float example_int (order := first_seen)
             [PostLogin (Some "admin") (Some "letmein");
              PostAdminAdd "Emma" "Fiction" "12" "3";
              PostLogin (Some "student") None;
              PostAdminRemove 1; PostChat (Some "science"); GetLogout]
             (mkClient None []) seeded_world))
  = db seeded_world.
Proof.
  exact (proj1 (no_change_without_admin_password example_float example_int
                  (order := first_seen)
                  [PostLogin (Some "admin") (Some "letmein");
                   PostAdminAdd "Emma" "Fiction" "12" "3";
                   PostLogin (Some "student") None;
                   PostAdminRemove 1; PostChat (Some "science"); GetLogout]
                  (mkClient None []) seeded_world eq_refl eq_refl)).
Defined.

(* ================================================================== *)
(** * Round trips through the search, and ids that stay removed *)
(* ================================================================== *)

Lemma py_lstrip_suffix s : exists a, s = a ++ py_lstrip s.
Proof.
  induction s as [|c s [a IH]]; simpl; [now exists ""|].
  destruct (isspace c); [|now exists ""].
  exists (String c a). simpl. now rewrite <- IH.
Qed.

Lemma py_rstrip_prefix s : exists b, s = py_rstrip s ++ b.
Proof.
  induction s as [|c s [b IH]]; cbn [py_rstrip]; [now exists ""|].
  destruct (py_rstrip s) as [|c' r] eqn:E.
  - destruct (isspace c); [now exists (String c s)|].
    exists s. reflexivity.
  - exists b. simpl. now rewrite IH at 1.
Qed.

(** A trimmed text occurs in the text it was trimmed from. *)
Lemma py_in_strip s : py_in (py_strip s) s = true.
Proof.
  apply TextFacts.py_in_spec. unfold py_strip.
  destruct (py_lstrip_suffix s) as [a Ha].
  destruct (py_rstrip_prefix (py_lstrip s)) as [b Hb].
  exists a, b. now rewrite <- Hb.
Qed.

Lemma plain_text_no_nul s : plain_text s = true -> free_of is_nul s = true.
Proof.
  unfold plain_text. induction s as [|c s IH]; simpl; [reflexivity|].
  intros H. apply andb_true_iff in H as [Hc Hs].
  apply negb_true_iff, orb_false_iff in Hc as [Hc _].
  now rewrite Hc, IH.
Qed.

(** A book is found under its own name, and under its own subject, when
    that text is ASCII. *)
Lemma own_text_occurs txt :
  plain_text txt = true ->
  free_of is_nul (py_lower (py_strip txt)) = true
  /\ py_in (py_lower (py_strip txt)) (c_str (sql_lower txt)) = true.
Proof.
  intros Hplain. rewrite (TextFacts.sql_lower_plain _ Hplain).
  assert (Hin : py_in (py_lower (py_strip txt)) (py_lower txt) = true).
  { rewrite <- py_strip_lower. apply py_in_strip. }
  split; [|exact Hin].
  eapply free_of_occurrence; [|exact Hin].
  rewrite <- (TextFacts.sql_lower_plain _ Hplain). apply c_str_no_nul.
Qed.

Lemma find_books_by_own_text w b txt :
  next_fault w = NoFault -> In b (books (db w)) ->
  plain_text txt = true -> txt = name b \/ txt = subject b ->
  exists rows, find_books txt w = (Return rows, opened w) /\ In b rows.
Proof.
  intros Hok Hb Hplain Hwhich.
  destruct (own_text_occurs txt Hplain) as [Hn Hin].
  eexists. split; [now apply find_books_ok|].
  apply filter_In. split; [assumption|].
  destruct Hwhich as [->| ->].
  - now rewrite (sql_like_occurrence _ _ Hn Hin).
  - rewrite (sql_like_occurrence _ (sql_lower (subject b)) Hn Hin).
    apply orb_true_r.
Qed.

(** Add, then search: the book that [add_book] has just stored is found
    by a search for its name as given when the name is ASCII text, and
    by a search for its subject as given when the subject is, whatever
    the text is otherwise ([%] and [_] included, surrounding whitespace
    and capitals included), when the read does not fail.  The row found
    carries the id returned, the name, subject and edition given, and
    the price as the REAL column gives it back: the price given, but
    [+0.0] for the negative zero. *)
Theorem added_book_is_found
    (w w1 : World) (name subject : string) (price : float)
    (edition rowid : Z) :
  add_book name subject price edition w = (Return (Some rowid), w1) ->
  next_fault w1 = NoFault ->
  (plain_text name = true ->
     exists rows,
       find_books name w1 = (Return rows, opened w1)
       /\ In (mkBook rowid name subject (stored_real price) edition) rows)
  /\ (plain_text subject = true ->
     exists rows,
       find_books subject w1 = (Return rows, opened w1)
       /\ In (mkBook rowid name subject (stored_real price) edition) rows).
Proof.
  intros Hadd Hok.
  assert (Hb : In (mkBook rowid name subject (stored_real price) edition)
                 (books (db w1))).
  { apply add_book_returned in Hadd as (_ & -> & _). simpl.
    apply in_or_app. right. now left. }
  split; intros Hplain.
  - apply find_books_by_own_text; auto.
  - apply find_books_by_own_text; auto.
Qed.

Lemma added_book_is_found_witness :
  add_book " 100%_Rust " "Systems" 30 1 seeded_world
    = (Return (Some 6), snd (add_book " 100%_Rust " "Systems" 30 1 seeded_world))
  /\ (exists rows,
        find_books " 100%_Rust "
          (snd (add_book " 100%_Rust " "Systems" 30 1 seeded_world))
        = (Return rows,
           opened (snd (add_book " 100%_Rust " "Systems" 30 1 seeded_world)))
        /\ In (mkBook 6 " 100%_Rust " "Systems" 30 1) rows)
  /\ (exists rows,
        find_books "Systems"
          (snd (add_book " 100%_Rust " "Systems" neg_zero 1 seeded_world))
        = (Return rows,
           opened (snd (add_book " 100%_Rust " "Systems" neg_zero 1 seeded_world)))
        /\ In (mkBook 6 " 100%_Rust " "Systems" 0 1) rows).
Proof.
  split; [reflexivity|]. split.
  - exact (proj1 (added_book_is_found seeded_world
                    (snd (add_book " 100%_Rust " "Systems" 30 1 seeded_world))
                    " 100%_Rust " "Systems" 30 1 6 eq_refl eq_refl) eq_refl).
  - exact (proj2 (added_book_is_found seeded_world
                    (snd (add_book " 100%_Rust " "Systems" neg_zero 1 seeded_world))
                    " 100%_Rust " "Systems" neg_zero 1 6 eq_refl eq_refl) eq_refl).
Defined.

(** ** Ids that stay removed *)

Lemma perform_keeps_absent {order : SetOrder} w op key :
  key <= seq (db w) -> ~ has_id key (db w) ->
  ~ has_id key (db (perform w op)).
Proof.
  intros Hkey Hno.
  destruct op as [n s p e|k| |q|q found]; simpl.
  - rewrite add_book_run. pose proof (top_rowid_bounds (db w)) as [Hseq _].
    destruct (next_fault w), (is_int64 e); try exact Hno.
    destruct (is_nan p); [exact Hno|].
    destruct (max_int64 <=? _); [exact Hno|].
    intros (b & Hb & Hk). simpl in Hb. apply in_app_or in Hb as [Hb|[<-|[]]].
    + apply Hno. now exists b.
    + simpl in Hk. lia.
  - rewrite remove_book_run.
    destruct (next_fault w), (is_int64 k); try exact Hno.
    intros (b & Hb & Hk). simpl in Hb. apply Hno. exists b.
    split; [|assumption]. unfold without_id in Hb. now apply filter_In in Hb.
  - now rewrite read_only_get_all_books.
  - now rewrite read_only_find_books.
  - now rewrite read_only_get_recommendations.
Qed.

Lemma perform_all_keeps_absent {order : SetOrder} ops w key :
  key <= seq (db w) -> ~ has_id key (db w) ->
  ~ has_id key (db (perform_all ops w)).
Proof.
  revert w. induction ops as [|op ops IH]; intros w Hkey Hno; [exact Hno|].
  change (perform_all (op :: ops) w) with (perform_all ops (perform w op)).
  apply IH.
  - pose proof (perform_seq w op). lia.
  - now apply perform_keeps_absent.
Qed.

Lemma returned_rows_in_store w rows :
  (fst (get_all_books w) = Return rows
   \/ exists query, fst (find_books query w) = Return rows) ->
  forall b, In b rows -> In b (books (db w)).
Proof.
  intros [H|[query H]] b Hb; revert H; run;
    destruct (next_fault w); simpl; intros H; try discriminate;
    injection H as <-; try contradiction.
  - eapply Permutation_in; [apply order_by_book_id_desc_perm|exact Hb].
  - now apply filter_In in Hb.
Qed.

(** A removed id stays removed: once [remove_book] has returned [True]
    for an id on a table that satisfies its invariant, no sequence of
    later calls, additions included, brings a row with that id back,
    and no listing or search returns one. *)
Theorem removed_id_stays_removed
    (order : SetOrder) (ops : list operation) (w : World) (key : Z) :
  well_formed (db w) ->
  fst (remove_book key w) = Return true ->
  ~ has_id key (db (perform_all ops (snd (remove_book key w))))
  /\ forall rows,
       (fst (get_all_books (perform_all ops (snd (remove_book key w))))
          = Return rows
        \/ exists query,
             fst (find_books query (perform_all ops (snd (remove_book key w))))
             = Return rows) ->
       forall b, In b rows -> book_id b <> key.
Proof.
  intros Hwf Hrem.
  assert (Hgone : ~ has_id key (db (perform_all ops (snd (remove_book key w))))).
  { apply perform_all_keeps_absent.
    - rewrite remove_book_seq.
      revert Hrem. rewrite remove_book_run.
      destruct (next_fault w), (is_int64 key); try discriminate.
      simpl. intros H. injection H as H.
      apply rowcount_positive in H as (b & Hb & <-).
      destruct Hwf as (_ & Hall & _). rewrite Forall_forall in Hall.
      specialize (Hall _ Hb). simpl in Hall. lia.
    - revert Hrem. rewrite remove_book_run.
      destruct (next_fault w), (is_int64 key); try discriminate.
      simpl. intros _ (b & Hb & Hk). now apply without_id_absent in Hb. }
  split; [exact Hgone|].
  intros rows Hrows b Hb Hk. apply Hgone. exists b.
  split; [|exact Hk]. now apply (returned_rows_in_store _ rows).
Qed.

Lemma removed_id_stays_removed_witness :
  well_formed (db seeded_world)
  /\ fst (remove_book 5 seeded_world) = Return true
  /\ ~ has_id 5
       (db (perform_all (order := first_seen)
              [Add "Persuasion" "Fiction" 12 1; Remove 2; Add "Emma" "Fiction" 12 3]
              (snd (remove_book 5 seeded_world)))).
Proof.
  split; [exact (proj2 seeded_world_rows)|]. split; [reflexivity|].
  exact (proj1 (removed_id_stays_removed first_seen
                  [Add "Persuasion" "Fiction" 12 1; Remove 2;
                   Add "Emma" "Fiction" 12 3]
                  seeded_world 5 (proj2 seeded_world_rows) eq_refl)).
Defined.

(* ================================================================== *)
(** * A statement that cannot be prepared *)
(* ================================================================== *)

(** When the statements of a connection fail as they are prepared (the
    file is locked against readers, say), no parameter is bound, so
    every function of the data layer catches the [sqlite3.Error] whatever
    its arguments, an id or an edition outside the 64-bit range
    included: it prints the error under its own heading and returns its
    empty value ([[]], [None], [False], the apology of the
    recommendation), the database unchanged; [_initialize_db] prints it
    and exits with status 1. *)
Theorem failure_at_prepare_is_swallowed
    (order : SetOrder) (w : World) (msg name subject query : string)
    (price : float) (edition key : Z) (b : Book) (found_books : list Book) :
  next_fault w = PrepareFault msg ->
  get_all_books w =
    (Return [], logged (opened w) ("Error fetching books: " ++ msg))
  /\ find_books query w =
    (Return [], logged (opened w) ("Search error: " ++ msg))
  /\ add_book name subject price edition w =
    (Return None, logged (opened w) ("Error adding book: " ++ msg))
  /\ remove_book key w =
    (Return false, logged (opened w) ("Error removing book: " ++ msg))
  /\ get_recommendations query (b :: found_books) w =
    (Return ("Sorry, an error occurred while fetching recommendations.", []),
     logged (opened w) ("Recommendation error: " ++ msg))
  /\ _initialize_db w =
    (Raise (SystemExit 1),
     logged (opened w) ("SQLite error during initialization: " ++ msg)).
Proof.
  intros H. repeat apply conj.
  - now apply get_all_books_unprepared.
  - now apply find_books_unprepared.
  - rewrite add_book_run. now rewrite H.
  - rewrite remove_book_run. now rewrite H.
  - unfold get_recommendations, determine_target_subject, bind, ret.
    rewrite retrieve_subject_books_run. now rewrite H.
  - rewrite initialize_db_run. now rewrite H.
Qed.

Lemma failure_at_prepare_is_swallowed_witness :
  fst (add_book "Emma" "Fiction" 12 (2 ^ 63)
         (mkWorld (db seeded_world) [PrepareFault "database is locked"] []))
    = Return None
  /\ fst (remove_book (2 ^ 63)
         (mkWorld (db seeded_world) [PrepareFault "database is locked"] []))
    = Return false
  /\ fst (find_books "science"
         (mkWorld (db seeded_world) [PrepareFault "database is locked"] []))
    = Return []
  /\ stdout (snd (_initialize_db
         (mkWorld (db seeded_world) [PrepareFault "database is locked"] [])))
    = ["SQLite error during initialization: database is locked"].
Proof.
  destruct (failure_at_prepare_is_swallowed first_seen
              (mkWorld (db seeded_world) [PrepareFault "database is locked"] [])
              "database is locked" "Emma" "Fiction" "science" 12 (2 ^ 63) (2 ^ 63)
              organic_chemistry [] eq_refl)
    as (_ & Hfind & Hadd & Hremove & _ & Hinit).
  exact (conj (f_equal fst Hadd) (conj (f_equal fst Hremove)
          (conj (f_equal fst Hfind)
                (f_equal (fun r => stdout (snd r)) Hinit)))).
Defined.
